(** * FRED CPI dashboard (app.py): URL state codec, change calculator and
      chart assembly

    A shallow embedding of [src/app.py].  Python text is modelled by [string]
    read as a sequence of characters with code points below 256, integers by
    [Z], [dict]s whose iteration order is observed by association lists, the
    other [dict]s by [gmap], floating point numbers by the IEEE 754 binary64
    instance of [SpecFloat], and exceptions and [st.warning] calls by a small
    monad. *)

From Stdlib Require Import ZArith Lia List String Ascii.
From Stdlib Require Import Floats.SpecFloat.
From stdpp Require Import base option list gmap strings.

Local Open Scope string_scope.
Local Open Scope list_scope.
Local Open Scope Z_scope.

(** ** Exceptions and warnings *)

(** The exception classes that the modelled code can raise. *)
Inductive exn : Type :=
  | ValueError
  | OverflowError
  | KeyError
  | StreamlitAPIException.

(** One constructor per [st.warning] call site of [get_url_params]:
    [f"Invalid start date format: {s}"], [f"Invalid end date format: {s}"]
    and [f"Error parsing URL parameters: {str(e)}"]. *)
Inductive warning : Type :=
  | InvalidStartDate (s : string)
  | InvalidEndDate (s : string)
  | ErrorParsingUrl (e : exn).

Inductive result (A : Type) : Type :=
  | Ok (a : A)
  | Raise (e : exn).
Arguments Ok {A} a.
Arguments Raise {A} e.

(** A computation returns or raises, and leaves the warnings it displayed. *)
Definition M (A : Type) : Type := result A * list warning.

Definition ret {A} (a : A) : M A := (Ok a, []).
Definition raise {A} (e : exn) : M A := (Raise e, []).
Definition warn (w : warning) : M unit := (Ok tt, [w]).
Definition lift {A} (r : result A) : M A := (r, []).

Definition bind {A B} (m : M A) (k : A -> M B) : M B :=
  match m with
  | (Ok a, ws) => let '(r, ws') := k a in (r, ws ++ ws')
  | (Raise e, ws) => (Raise e, ws)
  end.

(** [try: m except e: h e] *)
Definition try_except {A} (m : M A) (h : exn -> M A) : M A :=
  match m with
  | (Ok a, ws) => (Ok a, ws)
  | (Raise e, ws) => let '(r, ws') := h e in (r, ws ++ ws')
  end.

Notation "x <- m ;; k" := (bind m (fun x => k))
  (at level 100, m at next level, right associativity).
Notation "m ;;; k" := (bind m (fun _ => k))
  (at level 100, right associativity).

(** ** Python's [datetime], at day granularity *)

Module datetime.

Record date : Type := mkdate { year : Z; month : Z; day : Z }.

Definition MINYEAR : Z := 1.
Definition MAXYEAR : Z := 9999.

Definition is_leap (y : Z) : bool :=
  (y mod 4 =? 0) && (negb (y mod 100 =? 0) || (y mod 400 =? 0)).

Definition DAYS_IN_MONTH (m : Z) : Z :=
  match m with
  | 1 => 31 | 2 => 28 | 3 => 31 | 4 => 30 | 5 => 31 | 6 => 30
  | 7 => 31 | 8 => 31 | 9 => 30 | 10 => 31 | 11 => 30 | 12 => 31
  | _ => -1
  end.

Definition DAYS_BEFORE_MONTH (m : Z) : Z :=
  match m with
  | 1 => 0 | 2 => 31 | 3 => 59 | 4 => 90 | 5 => 120 | 6 => 151
  | 7 => 181 | 8 => 212 | 9 => 243 | 10 => 273 | 11 => 304 | 12 => 334
  | _ => -1
  end.

Definition days_in_month (y m : Z) : Z :=
  if (m =? 2) && is_leap y then 29 else DAYS_IN_MONTH m.

Definition days_before_year (y : Z) : Z :=
  let y := y - 1 in y * 365 + y / 4 - y / 100 + y / 400.

Definition days_before_month (y m : Z) : Z :=
  DAYS_BEFORE_MONTH m + (if (2 <? m) && is_leap y then 1 else 0).

(** The check made by the [date] constructor. *)
Definition check_date_fields (y m d : Z) : bool :=
  (MINYEAR <=? y) && (y <=? MAXYEAR) && (1 <=? m) && (m <=? 12) &&
  (1 <=? d) && (d <=? days_in_month y m).

Definition valid (d : date) : bool :=
  check_date_fields (year d) (month d) (day d).

Definition ymd2ord (y m d : Z) : Z :=
  days_before_year y + days_before_month y m + d.

Definition toordinal (d : date) : Z := ymd2ord (year d) (month d) (day d).

Definition DI400Y : Z := 146097.
Definition DI100Y : Z := 36524.
Definition DI4Y : Z := 1461.

Definition ord2ymd (n : Z) : date :=
  let n := n - 1 in
  let n400 := n / DI400Y in let n := n mod DI400Y in
  let y := n400 * 400 + 1 in
  let n100 := n / DI100Y in let n := n mod DI100Y in
  let n4 := n / DI4Y in let n := n mod DI4Y in
  let n1 := n / 365 in let n := n mod 365 in
  let y := y + n100 * 100 + n4 * 4 + n1 in
  if (n1 =? 4) || (n100 =? 4) then mkdate (y - 1) 12 31
  else
    let leapyear := (n1 =? 3) && (negb (n4 =? 24) || (n100 =? 3)) in
    let m := Z.shiftr (n + 50) 5 in
    let preceding :=
      DAYS_BEFORE_MONTH m + (if (2 <? m) && leapyear then 1 else 0) in
    if n <? preceding then
      let m := m - 1 in
      let preceding :=
        preceding
        - (DAYS_IN_MONTH m + (if (m =? 2) && leapyear then 1 else 0)) in
      mkdate y m (n - preceding + 1)
    else mkdate y m (n - preceding + 1).

Definition MAXORDINAL : Z := 3652059.

(** [d - timedelta(days=n)] *)
Definition sub_days (d : date) (n : Z) : result date :=
  let o := toordinal d - n in
  if (0 <? o) && (o <=? MAXORDINAL) then Ok (ord2ymd o)
  else Raise OverflowError.

Definition leb (a b : date) : bool := toordinal a <=? toordinal b.
Definition ltb (a b : date) : bool := toordinal a <? toordinal b.

(** *** [strftime('%Y-%m-%d')] *)

Definition digit_char (n : Z) : ascii :=
  ascii_of_N (Z.to_N (48 + n)).

(** Two and four decimal digits, zero-padded. *)
Definition fmt2 (n : Z) (k : string) : string :=
  String (digit_char (n / 10 mod 10)) (String (digit_char (n mod 10)) k).

Definition fmt4 (n : Z) (k : string) : string :=
  String (digit_char (n / 1000 mod 10))
    (String (digit_char (n / 100 mod 10)) (fmt2 n k)).

(** [%Y]: the year in decimal.  CPython hands the format to the C library,
    and glibc writes the year without padding: [date(999, 1, 5)] becomes
    [999-01-05].  From the year 1000 on these are the four digits of the
    Python documentation. *)
Definition fmt_year (n : Z) (k : string) : string :=
  if n <? 10 then String (digit_char (n mod 10)) k
  else if n <? 100 then fmt2 n k
  else if n <? 1000 then String (digit_char (n / 100 mod 10)) (fmt2 n k)
  else fmt4 n k.

(** [%m] and [%d] are two digits, zero-padded. *)
Definition strftime_ymd (d : date) : string :=
  fmt_year (year d)
    (String "-" (fmt2 (month d) (String "-" (fmt2 (day d) "")))).

(** *** [strptime(s, '%Y-%m-%d')]

    [_strptime] turns the format into the regular expression
    [(?P<Y>\d\d\d\d)-(?P<m>1[0-2]|0[1-9]|[1-9])-(?P<d>3[0-1]|[1-2]\d|0[1-9]|[1-9]| [1-9])],
    matches it at the start of the string, and raises [ValueError] when
    there is no match, when text remains after the match, or when the
    [date] constructor refuses the fields. *)

(** [\d] on a character below 256; its value is the one [int] gives. *)
Definition digit_val (c : ascii) : option Z :=
  let n := Z.of_N (N_of_ascii c) in
  if (48 <=? n) && (n <=? 57) then Some (n - 48) else None.

Definition in_range (lo hi : Z) (c : ascii) : option Z :=
  match digit_val c with
  | Some v => if (lo <=? v) && (v <=? hi) then Some v else None
  | None => None
  end.

(** A regular expression piece in continuation style: [alt] tries its
    branches in order and backtracks into the next one when the rest of
    the pattern fails, as [re] does. *)
Definition matcher (A R : Type) : Type :=
  string -> (A -> string -> option R) -> option R.

Definition alt {A R} (ps : list (matcher A R)) : matcher A R :=
  fun s k =>
    foldr (fun p acc => match p s k with Some r => Some r | None => acc end)
          None ps.

(** Two characters, the first in [l1..h1] and the second in [l2..h2]. *)
Definition two {R} (l1 h1 l2 h2 : Z) : matcher Z R :=
  fun s k =>
    match s with
    | String a (String b r) =>
        match in_range l1 h1 a, in_range l2 h2 b with
        | Some x, Some y => k (10 * x + y) r
        | _, _ => None
        end
    | _ => None
    end.

Definition one {R} (l h : Z) : matcher Z R :=
  fun s k =>
    match s with
    | String a r =>
        match in_range l h a with Some x => k x r | None => None end
    | _ => None
    end.

Definition lit {R} (c : ascii) : matcher unit R :=
  fun s k =>
    match s with
    | String a r => if Ascii.eqb a c then k tt r else None
    | _ => None
    end.

Definition re_Y {R} : matcher Z R :=
  fun s k =>
    match s with
    | String a (String b (String c (String d r))) =>
        match digit_val a, digit_val b, digit_val c, digit_val d with
        | Some x, Some y, Some z, Some w =>
            k (1000 * x + 100 * y + 10 * z + w) r
        | _, _, _, _ => None
        end
    | _ => None
    end.

Definition re_m {R} : matcher Z R :=
  alt [two 1 1 0 2; two 0 0 1 9; one 1 9].

Definition re_d {R} : matcher Z R :=
  alt [two 3 3 0 1; two 1 2 0 9; two 0 0 1 9; one 1 9;
       fun s k => lit " " s (fun _ r => one 1 9 r k)].

(** [format_regex.match(data_string)]: the fields and the unmatched rest. *)
Definition re_match_ymd (s : string) : option (Z * Z * Z * string) :=
  re_Y s (fun y s1 =>
  lit "-" s1 (fun _ s2 =>
  re_m s2 (fun m s3 =>
  lit "-" s3 (fun _ s4 =>
  re_d s4 (fun d rest => Some (y, m, d, rest)))))).

Definition strptime_ymd (s : string) : result date :=
  match re_match_ymd s with
  | None => Raise ValueError
  | Some (y, m, d, rest) =>
      if negb (String.eqb rest "") then Raise ValueError
      else if check_date_fields y m d then Ok (mkdate y m d)
      else Raise ValueError
  end.

End datetime.

(** ** Python's [str] and [urllib.parse] *)

Module str.

Definition code (c : ascii) : Z := Z.of_N (N_of_ascii c).
Definition chr (n : Z) : ascii := ascii_of_N (Z.to_N n).

(** [s.replace(old, new)] for one-character [old] and [new]. *)
Fixpoint replace (old new : ascii) (s : string) : string :=
  match s with
  | "" => ""
  | String c r =>
      String (if Ascii.eqb c old then new else c) (replace old new r)
  end.

(** [s.split(sep)] for a one-character separator. *)
Fixpoint split (sep : ascii) (s : string) : list string :=
  match s with
  | "" => [""]
  | String c r =>
      if Ascii.eqb c sep then "" :: split sep r
      else match split sep r with
           | x :: xs => String c x :: xs
           | [] => [String c ""]
           end
  end.

(** [s.partition(sep)]: the text before the first [sep], whether there is
    one, and the text after it. *)
Fixpoint partition (sep : ascii) (s : string) : string * bool * string :=
  match s with
  | "" => ("", false, "")
  | String c r =>
      if Ascii.eqb c sep then ("", true, r)
      else let '(a, found, b) := partition sep r in (String c a, found, b)
  end.

(** [sep.join(l)] *)
Fixpoint join (sep : string) (l : list string) : string :=
  match l with
  | [] => ""
  | [x] => x
  | x :: r => x +:+ sep +:+ join sep r
  end.

Definition len (s : string) : Z := Z.of_nat (String.length s).

(** [c in s] for a character [c]. *)
Fixpoint has (c : ascii) (s : string) : bool :=
  match s with
  | "" => false
  | String a r => Ascii.eqb a c || has c r
  end.

(** [s.isascii()] *)
Fixpoint isascii (s : string) : bool :=
  match s with
  | "" => true
  | String a r => (code a <? 128) && isascii r
  end.

(** Truth value of a string in a condition. *)
Definition truthy (s : string) : bool := negb (String.eqb s "").

End str.

Module urllib.

(** [_ALWAYS_SAFE]: ASCII letters, digits and [_.-~]. *)
Definition always_safe (c : ascii) : bool :=
  let n := str.code c in
  ((65 <=? n) && (n <=? 90)) || ((97 <=? n) && (n <=? 122)) ||
  ((48 <=? n) && (n <=? 57)) ||
  (n =? 95) || (n =? 46) || (n =? 45) || (n =? 126).

Definition hex_char (n : Z) : ascii :=
  if n <? 10 then str.chr (48 + n) else str.chr (55 + n).

(** ['%{:02X}'.format(b)] in front of [k]. *)
Definition pct (b : Z) (k : string) : string :=
  String "%" (String (hex_char (b / 16)) (String (hex_char (b mod 16)) k)).

(** [quote_plus(s, safe='')]: a safe character stays, a space becomes [+],
    any other character is replaced by the escapes of its UTF-8 bytes
    (one byte below 128, two bytes from 128 to 255). *)
Fixpoint quote_plus (s : string) : string :=
  match s with
  | "" => ""
  | String c r =>
      let n := str.code c in
      if always_safe c then String c (quote_plus r)
      else if Ascii.eqb c " " then String "+" (quote_plus r)
      else if n <? 128 then pct n (quote_plus r)
      else pct (192 + n / 64) (pct (128 + n mod 64) (quote_plus r))
  end.

(** A value of the mapping given to [urlencode]: a string or a sequence of
    strings. *)
Inductive qvalue : Type :=
  | QStr (s : string)
  | QSeq (l : list string).

(** The [k=v] items that [urlencode(query, doseq=True)] joins. *)
Definition urlencode_items (query : list (string * qvalue)) : list string :=
  flat_map
    (fun kv =>
       let k := quote_plus (fst kv) in
       match snd kv with
       | QStr v => [k +:+ "=" +:+ quote_plus v]
       | QSeq l => map (fun elt => k +:+ "=" +:+ quote_plus elt) l
       end)
    query.

Definition urlencode (query : list (string * qvalue)) : string :=
  str.join "&" (urlencode_items query).

Definition hex_val (c : ascii) : option Z :=
  let n := str.code c in
  if (48 <=? n) && (n <=? 57) then Some (n - 48)
  else if (65 <=? n) && (n <=? 70) then Some (n - 55)
  else if (97 <=? n) && (n <=? 102) then Some (n - 87)
  else None.

(** [unquote(s)]: [%XY] with two hexadecimal digits stands for a byte, any
    other [%] stays.  Python then decodes the bytes as UTF-8 and replaces
    what is malformed; the model covers the escapes of bytes below 128 and
    answers [None] when an escape gives a byte from 128 on. *)
Fixpoint unquote (s : string) : option string :=
  match s with
  | "" => Some ""
  | String c t =>
      if Ascii.eqb c "%" then
        match t with
        | String h (String l r) =>
            match hex_val h, hex_val l with
            | Some a, Some b =>
                let n := 16 * a + b in
                if n <? 128 then String (str.chr n) <$> unquote r else None
            | _, _ => String c <$> unquote t
            end
        | _ => String c <$> unquote t
        end
      else String c <$> unquote t
  end.

(** [parse_qsl(qs, keep_blank_values=True)] *)
Definition parse_qsl (qs : string) : option (list (string * string)) :=
  mapM (fun name_value =>
          let '(name, _, value) := str.partition "=" name_value in
          n ← unquote (str.replace "+" " " name);
          v ← unquote (str.replace "+" " " value);
          Some (n, v))
       (filter (fun name_value => str.truthy name_value = true)
               (str.split "&" qs)).

(** The grouping loop of [parse_qs], one iteration. *)
Definition group_step (parsed_result : gmap string (list string))
    (nv : string * string) : gmap string (list string) :=
  match parsed_result !! fst nv with
  | Some vs => <[fst nv := vs ++ [snd nv]]> parsed_result
  | None => <[fst nv := [snd nv]]> parsed_result
  end.

Definition group_pairs (pairs : list (string * string))
  : gmap string (list string) :=
  fold_left group_step pairs ∅.

(** [parse_qs(qs, keep_blank_values=True)] *)
Definition parse_qs (qs : string) : option (gmap string (list string)) :=
  group_pairs <$> parse_qsl qs.

End urllib.

(** ** Streamlit *)

Module st.

(** [st.query_params]: each key of the page's query string with its values
    in order.  Streamlit fills it with
    [parse_qs(query_string, keep_blank_values=True)]; every value is a
    [str]. *)
Abbreviation query_params := (gmap string (list string)).

(** [st.query_params[key]]: the last value. *)
Definition getitem (qp : query_params) (key : string) : option string :=
  match qp !! key with
  | Some vs => Some (List.last vs "")
  | None => None
  end.

(** [st.query_params.get(key, default)]: the value found is a [str], which
    [of_str] injects into the type of [default]. *)
Definition get {A} (qp : query_params) (key : string)
    (of_str : string -> A) (default : A) : A :=
  match getitem qp key with
  | Some v => of_str v
  | None => default
  end.

(** [st.query_params.get_all(key)] *)
Definition get_all (qp : query_params) (key : string) : list string :=
  match qp !! key with
  | Some vs => vs
  | None => []
  end.

(** [st.date_input(label, value, min_value=m)] on the run that builds the
    page for a URL: the widget returns its default [value]; Streamlit
    refuses a default below [min_value] with a [StreamlitAPIException]
    (the upper bound defaults to ten years after [value]). *)
Definition date_input (value min_value : datetime.date)
  : result datetime.date :=
  if datetime.ltb value min_value then Raise StreamlitAPIException
  else Ok value.

(** [st.multiselect(label, options, default=d)] on that run: the default,
    which has to be made of options. *)
Definition multiselect (options default : list string)
  : result (list string) :=
  if forallb (fun d => existsb (String.eqb d) options) default
  then Ok default else Raise StreamlitAPIException.

End st.

(** ** pandas: a [float64] column *)

Module pandas.

Definition prec : Z := 53.
Definition emax : Z := 1024.

Abbreviation float := spec_float.

(** A missing value of a [float64] column is NaN. *)
Definition nan : float := S754_nan.
Definition isna (a : float) : bool :=
  match a with S754_nan => true | _ => false end.

Definition of_int (n : Z) : float := binary_normalize prec emax n 0 false.
Definition truediv (a b : float) : float := SFdiv prec emax a b.
Definition sub (a b : float) : float := SFsub prec emax a b.
Definition mul (a b : float) : float := SFmul prec emax a b.

(** [Series.ffill()]: a missing value takes the last value before it that
    is present. *)
Fixpoint ffill_from (prev : float) (data : list float) : list float :=
  match data with
  | [] => []
  | a :: r =>
      if isna a then prev :: ffill_from prev r else a :: ffill_from a r
  end.

Definition ffill (data : list float) : list float := ffill_from nan data.

(** [Series.shift(periods)] for [periods >= 0]: same length, the first
    [periods] positions missing. *)
Definition shift (periods : nat) (data : list float) : list float :=
  take (length data) (replicate periods nan ++ data).

(** The default of [pct_change]'s [fill_method]: pandas before 3.0 pads
    missing values first, pandas 3.0 does not. *)
Inductive fill_method : Type := pad | no_fill.

(** The values that [pct_change] computes on. *)
Definition filled (fill : fill_method) (values : list float) : list float :=
  match fill with pad => ffill values | no_fill => values end.

(** [Series.pct_change(periods)]: [data / data.shift(periods) - 1]. *)
Definition pct_change (fill : fill_method) (periods : nat)
    (values : list float) : list float :=
  let data := filled fill values in
  let shifted := shift periods data in
  zip_with (fun a b => sub (truediv a b) (of_int 1)) data shifted.

(** [series * n] *)
Definition mul_scalar (data : list float) (n : Z) : list float :=
  map (fun a => mul a (of_int n)) data.

(** A frame with a date index and the column ['value']. *)
Record DataFrame : Type :=
  { index : list datetime.date; value : list float }.

End pandas.

(** ** plotly: the parts of a figure that [create_plot] sets *)

Module go.

Record Line : Type := { width : Z; color : string; dash : string }.

(** [yaxis = None] is a trace built without [yaxis=], which plotly draws
    on the primary axis ['y']. *)
Record Scatter : Type :=
  { x : list datetime.date;
    y : list pandas.float;
    name : string;
    line : Line;
    yaxis : option string }.

(** Layout properties; [None] is a property that was not set. *)
Record Axis : Type :=
  { overlaying : option string;
    side : option string;
    axis_title : option string }.

Record Layout : Type :=
  { layout_yaxis : option Axis;
    layout_yaxis2 : option Axis;
    title : option string;
    xaxis_title : option string;
    hovermode : option string;
    height : option Z }.

Record Figure : Type := { data : list Scatter; layout : Layout }.

(** [go.Figure()] *)
Definition empty_figure : Figure :=
  {| data := [];
     layout := {| layout_yaxis := None; layout_yaxis2 := None;
                  title := None; xaxis_title := None;
                  hovermode := None; height := None |} |}.

(** [fig.add_trace(t)] *)
Definition add_trace (fig : Figure) (t : Scatter) : Figure :=
  {| data := data fig ++ [t]; layout := layout fig |}.

(** [fig.update_layout(...)], as a function on the layout. *)
Definition update_layout (fig : Figure) (f : Layout -> Layout) : Figure :=
  {| data := data fig; layout := f (layout fig) |}.

(** The axis a trace is bound to. *)
Definition trace_axis (t : Scatter) : string :=
  match yaxis t with Some a => a | None => "y" end.

End go.

(** ** app.py *)

(** An insertion-ordered [dict] with string keys. *)
Abbreviation dict V := (list (string * V)).

Definition keys {V} (d : dict V) : list string := map fst d.

(** [k in d] *)
Definition contains {V} (d : dict V) (k : string) : bool :=
  existsb (fun kv => String.eqb k (fst kv)) d.

(** [x in l] for a list of strings *)
Definition is_in (x : string) (l : list string) : bool :=
  existsb (String.eqb x) l.

Definition CPI_SERIES : dict string :=
  [ ("All Items", "CPIAUCSL");
    ("All Items Less Food and Energy", "CPILFESL");
    ("Food and Beverages", "CPIFABSL");
    ("Housing", "CPIHOSSL");
    ("Transportation", "CPITRNSL");
    ("Medical Care", "CPIMEDSL");
    ("Recreation", "CPIRECSL");
    ("Education and Communication", "CPIEDUSL");
    ("Other Goods and Services", "CPIOGSSL") ].

Definition COLOR_PALETTE : list string :=
  [ "#1f77b4"; "#ff7f0e"; "#2ca02c"; "#d62728"; "#9467bd";
    "#8c564b"; "#e377c2"; "#7f7f7f"; "#bcbd22" ].

Section app.

(** The pandas default of [fill_method], which the source leaves to the
    installed version. *)
Variable fill_default : pandas.fill_method.

Definition calculate_yoy_change (df : pandas.DataFrame)
  : list pandas.float :=
  pandas.mul_scalar (pandas.pct_change fill_default 12 (pandas.value df)) 100.

(** One entry of the comprehension that builds [series_colors]; the index
    [i % len(COLOR_PALETTE)] is always in range. *)
Definition color_step (colors : gmap string string) (e : nat * string)
  : gmap string string :=
  let '(i, series) := e in
  match COLOR_PALETTE !! (i mod length COLOR_PALETTE)%nat with
  | Some c => <[series := c]> colors
  | None => colors
  end.

(** [{series: COLOR_PALETTE[i % len(COLOR_PALETTE)]
      for i, series in enumerate(keys)}] *)
Definition colors_of_keys (ks : list string) : gmap string string :=
  fold_left color_step (imap (fun i series => (i, series)) ks) ∅.

Definition series_colors (df_dict : dict pandas.DataFrame)
  : gmap string string :=
  colors_of_keys (keys df_dict).

(** [colors[series_name]] *)
Definition color_of (colors : gmap string string) (series_name : string)
  : result string :=
  match colors !! series_name with
  | Some c => Ok c
  | None => Raise KeyError
  end.

(** The [go.Scatter(...)] of the first loop, for a series whose color
    is [c]. *)
Definition index_scatter (view_type c series_name : string)
    (df : pandas.DataFrame) : go.Scatter :=
  {| go.x := pandas.index df;
     go.y := pandas.value df;
     go.name := series_name +:+ " (Index)";
     go.line :=
       {| go.width := 2;
          go.color := c;
          go.dash := if String.eqb view_type "Both"
                     then "dot" else "solid" |};
     go.yaxis := None |}.

(** The [go.Scatter(...)] of the second loop. *)
Definition yoy_scatter (view_type c series_name : string)
    (df : pandas.DataFrame) : go.Scatter :=
  let yoy := calculate_yoy_change df in
  {| go.x := pandas.index df;
     go.y := yoy;
     go.name := series_name +:+ " (YoY %)";
     go.line := {| go.dash := "solid"; go.width := 2; go.color := c |};
     go.yaxis := Some (if String.eqb view_type "Both" then "y2" else "y") |}.

(** One iteration of a loop of [create_plot]: look the color up, build
    the trace, add it to the figure. *)
Definition add_series_trace
    (scatter : string -> string -> pandas.DataFrame -> go.Scatter)
    (colors : gmap string string) (fig : go.Figure)
    (item : string * pandas.DataFrame) : result go.Figure :=
  let '(series_name, df) := item in
  match color_of colors series_name with
  | Raise e => Raise e
  | Ok c => Ok (go.add_trace fig (scatter c series_name df))
  end.

(** [for item in items: fig = body fig item], stopping at an exception. *)
Fixpoint for_each {A S} (body : S -> A -> result S) (items : list A)
    (s : S) : result S :=
  match items with
  | [] => Ok s
  | a :: r =>
      match body s a with
      | Ok s' => for_each body r s'
      | Raise e => Raise e
      end
  end.

Definition set_yaxis_title (t : string) (l : go.Layout) : go.Layout :=
  {| go.layout_yaxis :=
       Some {| go.overlaying := None; go.side := None;
               go.axis_title := Some t |};
     go.layout_yaxis2 := go.layout_yaxis2 l;
     go.title := go.title l;
     go.xaxis_title := go.xaxis_title l;
     go.hovermode := go.hovermode l;
     go.height := go.height l |}.

Definition set_dual_axes (l : go.Layout) : go.Layout :=
  {| go.layout_yaxis :=
       Some {| go.overlaying := None; go.side := None;
               go.axis_title := Some "Index Value" |};
     go.layout_yaxis2 :=
       Some {| go.overlaying := Some "y"; go.side := Some "right";
               go.axis_title := Some "Year-over-Year Change (%)" |};
     go.title := go.title l;
     go.xaxis_title := go.xaxis_title l;
     go.hovermode := go.hovermode l;
     go.height := go.height l |}.

Definition set_common (l : go.Layout) : go.Layout :=
  {| go.layout_yaxis := go.layout_yaxis l;
     go.layout_yaxis2 := go.layout_yaxis2 l;
     go.title := Some "CPI Data";
     go.xaxis_title := Some "Date";
     go.hovermode := Some "x unified";
     go.height := Some 600 |}.

Definition create_plot (df_dict : dict pandas.DataFrame)
    (view_type : string) : result go.Figure :=
  let fig := go.empty_figure in
  let colors := series_colors df_dict in
  match (if is_in view_type ["Index Values"; "Both"]
         then for_each (add_series_trace (index_scatter view_type) colors)
                df_dict fig
         else Ok fig) with
  | Raise e => Raise e
  | Ok fig =>
  match (if is_in view_type ["Year-over-Year Changes"; "Both"]
         then for_each (add_series_trace (yoy_scatter view_type) colors)
                df_dict fig
         else Ok fig) with
  | Raise e => Raise e
  | Ok fig =>
      let fig :=
        if String.eqb view_type "Both"
        then go.update_layout fig set_dual_axes
        else go.update_layout fig
               (set_yaxis_title
                  (if String.eqb view_type "Index Values"
                   then "Index Value" else "Year-over-Year Change (%)")) in
      Ok (go.update_layout fig set_common)
  end end.

End app.

(** *** The URL state codec *)

(** The dictionary that [get_url_params] returns. *)
Record url_params : Type :=
  { start_date : option datetime.date;
    end_date : option datetime.date;
    series : list string;
    view_type : string }.

Definition DEFAULT_SERIES : list string :=
  ["All Items"; "All Items Less Food and Energy"].

Definition VIEW_TYPES : list string :=
  ["Index Values"; "Year-over-Year Changes"; "Both"].

(** The block that [get_url_params] runs for [start_date_str] and again for
    [end_date_str]; [w] is the warning of the block.  The values of
    [st.query_params] are [str], so [isinstance(date_str, str)] holds. *)
Definition parse_date_str (w : string -> warning) (date_str : option string)
  : M (option datetime.date) :=
  match date_str with
  | Some s =>
      if str.truthy s && (5 <? str.len s) then
        try_except
          (d <- lift (datetime.strptime_ymd s);; ret (Some d))
          (fun e =>
             match e with
             | ValueError => warn (w s);;; ret None
             | _ => raise e
             end)
      else ret None
  | None => ret None
  end.

(** The loop over [all_series], one iteration. *)
Definition add_valid_series (valid_series : list string) (s : string)
  : list string :=
  let decoded_series := str.replace "+" " " s in
  if contains CPI_SERIES decoded_series
  then valid_series ++ [decoded_series]
  else valid_series.

(** The body of the outer [try] of [get_url_params].  The variable [series]
    of line 134 is never read and is left out. *)
Definition get_url_params_try (qp : st.query_params) : M url_params :=
  let start_date_str := st.get qp "start_date" Some None in
  let end_date_str := st.get qp "end_date" Some None in
  let view_type := st.get qp "view_type" id "Index Values" in
  start_date <- parse_date_str InvalidStartDate start_date_str;;
  end_date <- parse_date_str InvalidEndDate end_date_str;;
  let all_series := st.get_all qp "series" in
  let valid_series := fold_left add_valid_series all_series [] in
  let valid_series :=
    match valid_series with [] => DEFAULT_SERIES | _ => valid_series end in
  let view_type :=
    if negb (is_in view_type VIEW_TYPES) then "Index Values" else view_type in
  ret {| start_date := start_date;
         end_date := end_date;
         series := valid_series;
         view_type := view_type |}.

Definition get_url_params (qp : st.query_params) : M url_params :=
  try_except (get_url_params_try qp)
    (fun e =>
       warn (ErrorParsingUrl e);;;
       ret {| start_date := None;
              end_date := None;
              series := DEFAULT_SERIES;
              view_type := "Index Values" |}).

(** The parameters that [generate_share_url] encodes. *)
Definition share_params (start_date end_date : datetime.date)
    (selected_series : list string) (view_type : string)
  : list (string * urllib.qvalue) :=
  [ ("start_date", urllib.QStr (datetime.strftime_ymd start_date));
    ("end_date", urllib.QStr (datetime.strftime_ymd end_date));
    ("series", urllib.QSeq selected_series);
    ("view_type", urllib.QStr view_type) ].

Definition generate_share_url (qp : st.query_params)
    (start_date end_date : datetime.date)
    (selected_series : list string) (view_type : string) : string :=
  let current_url := st.get qp "_url" id "" in
  let base_url :=
    if str.truthy current_url
    then match str.split "?" current_url with x :: _ => x | [] => "" end
    else "" in
  base_url +:+ "?" +:+
  urllib.urlencode (share_params start_date end_date selected_series view_type).

(** *** The page script, on the run that builds the page for a URL *)

(** The state that the widgets hand to the rest of the script. *)
Record view_state : Type :=
  { vs_start_date : datetime.date;
    vs_end_date : datetime.date;
    vs_selected_series : list string;
    vs_view_type : string }.

(** [datetime.now() - timedelta(days=365*5)] when the URL gave no date. *)
Definition default_start (now : datetime.date) (p : url_params)
  : result datetime.date :=
  match start_date p with
  | Some d => Ok d
  | None => datetime.sub_days now (365 * 5)
  end.

Definition default_end (now : datetime.date) (p : url_params)
  : datetime.date :=
  match end_date p with
  | Some d => d
  | None => now
  end.

(** [options.index(v)] *)
Fixpoint list_index (options : list string) (v : string) : result nat :=
  match options with
  | [] => Raise ValueError
  | o :: r =>
      if String.eqb o v then Ok 0%nat
      else match list_index r v with
           | Ok i => Ok (S i)
           | Raise e => Raise e
           end
  end.

(** [st.radio(label, options, index=i)] on that run. *)
Definition radio (options : list string) (i : nat) : result string :=
  match options !! i with
  | Some o => Ok o
  | None => Raise StreamlitAPIException
  end.

(** Lines 214 to 248 of the script; [now] is the day [datetime.now()]
    falls on. *)
Definition page_state (now : datetime.date) (qp : st.query_params)
  : M view_state :=
  p <- get_url_params qp;;
  ds <- lift (default_start now p);;
  start_date <- lift (st.date_input ds (datetime.mkdate 1947 1 1));;
  end_date <- lift (st.date_input (default_end now p) start_date);;
  let default_series :=
    match series p with [] => DEFAULT_SERIES | l => l end in
  selected_series <- lift (st.multiselect (keys CPI_SERIES) default_series);;
  i <- lift (list_index VIEW_TYPES (view_type p));;
  v <- lift (radio VIEW_TYPES i);;
  ret {| vs_start_date := start_date;
         vs_end_date := end_date;
         vs_selected_series := selected_series;
         vs_view_type := v |}.

(** The pairs that [urlencode(query, doseq=True)] writes, before quoting. *)
Definition query_pairs (query : list (string * urllib.qvalue))
  : list (string * string) :=
  flat_map
    (fun kv =>
       match snd kv with
       | urllib.QStr v => [(fst kv, v)]
       | urllib.QSeq l => map (pair (fst kv)) l
       end)
    query.

Definition qvalue_isascii (v : urllib.qvalue) : bool :=
  match v with
  | urllib.QStr s => str.isascii s
  | urllib.QSeq l => forallb str.isascii l
  end.

(** *** Field by field reading of the query parameters *)

(** The date that a date parameter stands for, if any. *)
Definition date_of (date_str : option string) : option datetime.date :=
  match date_str with
  | Some s =>
      if 5 <? str.len s then
        match datetime.strptime_ymd s with
        | Ok d => Some d
        | Raise _ => None
        end
      else None
  | None => None
  end.

(** The warning that a date parameter causes, if any. *)
Definition date_warnings (w : string -> warning) (date_str : option string)
  : list warning :=
  match date_str with
  | Some s =>
      if 5 <? str.len s then
        match datetime.strptime_ymd s with
        | Ok _ => []
        | Raise _ => [w s]
        end
      else []
  | None => []
  end.

(** The selection that the values of [series] stand for. *)
Definition series_of (all_series : list string) : list string :=
  match List.filter (contains CPI_SERIES)
          (map (str.replace "+" " ") all_series) with
  | [] => DEFAULT_SERIES
  | l => l
  end.

(** The view type that the parameter [view_type] stands for. *)
Definition view_of (v : option string) : string :=
  match v with
  | Some v => if is_in v VIEW_TYPES then v else "Index Values"
  | None => "Index Values"
  end.

(** The base that [generate_share_url] puts in front of the parameters: the
    current URL up to its first [?] (lines 189 to 192). *)
Definition base_url (qp : st.query_params) : string :=
  let current_url := st.get qp "_url" id "" in
  if str.truthy current_url
  then match str.split "?" current_url with x :: _ => x | [] => "" end
  else "".

(** The query of a URL, which is what the page opened on the URL gets as
    its parameters: the fragment starts at the first [#], and the query is
    the text after the first [?] of what comes before the fragment
    ([urlsplit(url).query]).  A [?] behind a [#] belongs to the fragment,
    and such a URL has no query. *)
Definition query_string (url : string) : string :=
  snd (str.partition "?" (fst (fst (str.partition "#" url)))).

(** *** The round trip through a shared URL *)

(** What [get_url_params] returns for the URL that [generate_share_url]
    builds on a page whose parameters are [qp]. *)
Definition decode_share_url (qp : st.query_params)
    (start_date end_date : datetime.date)
    (selected_series : list string) (view_type : string)
  : option (M url_params) :=
  get_url_params <$>
    urllib.parse_qs
      (query_string
         (generate_share_url qp start_date end_date selected_series
            view_type)).

(** The state comes back: the decoder returns it, without a warning. *)
Definition share_roundtrip (qp : st.query_params)
    (start_date end_date : datetime.date)
    (selected_series : list string) (view_type : string) : Prop :=
  decode_share_url qp start_date end_date selected_series view_type
  = Some (Ok {| start_date := Some start_date;
                end_date := Some end_date;
                series := selected_series;
                view_type := view_type |}, []).

(** *** What the decoder promises *)

(** Every field of the decoded parameters lies in its domain; a date that is
    [None] stands for the default of the widget. *)
Definition params_valid (p : url_params) : Prop :=
  (forall d, start_date p = Some d -> datetime.valid d = true) /\
  (forall d, end_date p = Some d -> datetime.valid d = true) /\
  series p <> [] /\
  Forall (fun s => contains CPI_SERIES s = true) (series p) /\
  is_in (view_type p) VIEW_TYPES = true.

(** How one date parameter is read: the value of the parameter, the date
    that comes out, and the warnings displayed. *)
Inductive date_param_read (w : string -> warning)
  : option string -> option datetime.date -> list warning -> Prop :=
  | read_missing : date_param_read w None None []
  | read_short s :
      str.len s <= 5 -> date_param_read w (Some s) None []
  | read_parsed s d :
      5 < str.len s -> datetime.strptime_ymd s = Ok d ->
      date_param_read w (Some s) (Some d) []
  | read_failed s e :
      5 < str.len s -> datetime.strptime_ymd s = Raise e ->
      date_param_read w (Some s) None [w s].

(** "Five years before today", as a calendar date. *)
Definition five_years_before (today : datetime.date) : datetime.date :=
  datetime.mkdate (datetime.year today - 5) (datetime.month today)
    (datetime.day today).



(** *** What the chart builder promises *)

(** [COLOR_PALETTE[i % 9]] *)
Definition palette_at (i : nat) : string :=
  default "" (COLOR_PALETTE !! (i mod 9)%nat).

(** [t] is the trace that a loop of [create_plot] adds for [item]. *)
Definition trace_of
    (scatter : string -> string -> pandas.DataFrame -> go.Scatter)
    (colors : gmap string string)
    (t : go.Scatter) (item : string * pandas.DataFrame) : Prop :=
  exists c, colors !! fst item = Some c /\ t = scatter c (fst item) (snd item).

(** The layout that [create_plot] leaves for a view type. *)
Definition plot_layout (view_type : string) : go.Layout :=
  set_common
    ((if String.eqb view_type "Both" then set_dual_axes
      else set_yaxis_title
             (if String.eqb view_type "Index Values"
              then "Index Value" else "Year-over-Year Change (%)"))
       (go.layout go.empty_figure)).

(** The chart of view type [Both]: two traces for the series at each
    position [i], the one of the index values at [i] and the one of the
    changes at [len(df_dict) + i], with the line style [index_style] for the
    former. *)
Definition both_traces (index_style : string) (fill : pandas.fill_method)
    (df_dict : dict pandas.DataFrame) : Prop :=
  exists fig,
    create_plot fill df_dict "Both" = Ok fig /\
    length (go.data fig) = (2 * length df_dict)%nat /\
    (exists ax, go.layout_yaxis (go.layout fig) = Some ax /\
                go.axis_title ax = Some "Index Value") /\
    (exists ax, go.layout_yaxis2 (go.layout fig) = Some ax /\
                go.axis_title ax = Some "Year-over-Year Change (%)") /\
    forall (i : nat) n df,
      df_dict !! i = Some (n, df) ->
      exists c ti ty,
        series_colors df_dict !! n = Some c /\
        go.data fig !! i = Some ti /\
        go.data fig !! (length df_dict + i)%nat = Some ty /\
        go.name ti = n +:+ " (Index)" /\
        go.y ti = pandas.value df /\
        go.dash (go.line ti) = index_style /\
        go.color (go.line ti) = c /\
        go.trace_axis ti = "y" /\
        go.name ty = n +:+ " (YoY %)" /\
        go.y ty = calculate_yoy_change fill df /\
        go.dash (go.line ty) = "solid" /\
        go.color (go.line ty) = c /\
        go.trace_axis ty = "y2".

(** A trace of index values, and a trace of changes, for an item of the
    input. *)
Definition is_index_trace (t : go.Scatter)
    (item : string * pandas.DataFrame) : Prop :=
  go.name t = fst item +:+ " (Index)" /\
  go.x t = pandas.index (snd item) /\ go.y t = pandas.value (snd item).

Definition is_yoy_trace (fill : pandas.fill_method) (t : go.Scatter)
    (item : string * pandas.DataFrame) : Prop :=
  go.name t = fst item +:+ " (YoY %)" /\
  go.x t = pandas.index (snd item) /\
  go.y t = calculate_yoy_change fill (snd item).

(** *** Values for examples, and the quoted form of a pair *)

Definition quote_item (kv : string * string) : string :=
  urllib.quote_plus (fst kv) +:+ String "=" (urllib.quote_plus (snd kv)).

(** The series [100, 101, ..., 123] of the specification. *)
Definition hundred_up : pandas.DataFrame :=
  {| pandas.index := [];
     pandas.value :=
       map (fun i => pandas.of_int (100 + Z.of_nat i)) (seq 0 24) |}.

(** Twelve months [100, 101, ..., 111] and a thirteenth month whose value
    is missing. *)
Definition missing_month : pandas.DataFrame :=
  {| pandas.index := [];
     pandas.value :=
       map (fun i => pandas.of_int (100 + Z.of_nat i)) (seq 0 12)
       ++ [pandas.nan] |}.

(** Two frames of one value each, for examples. *)
Definition frame_a : pandas.DataFrame :=
  {| pandas.index := [datetime.mkdate 2024 1 1];
     pandas.value := [pandas.of_int 100] |}.

Definition frame_b : pandas.DataFrame :=
  {| pandas.index := [datetime.mkdate 2024 1 1];
     pandas.value := [pandas.of_int 200] |}.

(** *** Tactics *)

(** Case analysis on an integer known to lie in a short range. *)
Tactic Notation "by_cases_below" integer(n) tactic3(tac) :=
  let i := fresh "i" in
  let Hi := fresh "Hi" in
  intros i Hi; do n (destruct i as [|i]; [tac|]); exfalso; lia.

(** ** The data fetcher and the part of the script that draws the chart *)

(** [st.error(f"Error fetching data: {str(e)}")] *)
Inductive display : Type :=
  | ErrorFetching (e : exn).

(** The series that [fred.get_series] returns: dates and values.  fredapi
    leaves the series unnamed, so [pd.DataFrame(series, columns=['value'])]
    is the frame with that index and these values in its one column. *)
Record Series : Type :=
  { s_index : list datetime.date; s_values : list pandas.float }.

Definition to_frame (s : Series) : pandas.DataFrame :=
  {| pandas.index := s_index s; pandas.value := s_values s |}.

(** [d[k]] *)
Fixpoint dict_getitem {V} (d : dict V) (k : string) : result V :=
  match d with
  | [] => Raise KeyError
  | (k', v) :: r => if String.eqb k' k then Ok v else dict_getitem r k
  end.

(** [d[k] = v]: a key that is present keeps its place. *)
Fixpoint dict_set {V} (d : dict V) (k : string) (v : V) : dict V :=
  match d with
  | [] => [(k, v)]
  | (k', v') :: r =>
      if String.eqb k' k then (k', v) :: r else (k', v') :: dict_set r k v
  end.

Section fetch.

(** [fred.get_series(series_id, observation_start=, observation_end=)], a
    call to the provider that returns a series or raises. *)
Variable get_series :
  string -> datetime.date -> datetime.date -> result Series.

Definition get_cpi_data (series_id : string)
    (start_date end_date : datetime.date)
  : option pandas.DataFrame * list display :=
  match get_series series_id start_date end_date with
  | Ok df => (Some (to_frame df), [])
  | Raise e => (None, [ErrorFetching e])
  end.

(** The loop of lines 259 to 263, from the dictionary built so far. *)
Fixpoint fetch_loop (start_date end_date : datetime.date)
    (selected_series : list string) (df_dict : dict pandas.DataFrame)
  : result (dict pandas.DataFrame) * list display :=
  match selected_series with
  | [] => (Ok df_dict, [])
  | series_name :: rest =>
      match dict_getitem CPI_SERIES series_name with
      | Raise e => (Raise e, [])
      | Ok series_id =>
          let '(df, shown) := get_cpi_data series_id start_date end_date in
          let df_dict :=
            match df with
            | Some df => dict_set df_dict series_name df
            | None => df_dict
            end in
          let '(r, shown') := fetch_loop start_date end_date rest df_dict in
          (r, shown ++ shown')
      end
  end.

(** Lines 257 to 267: the figure handed to [st.plotly_chart], if any, and
    the errors displayed. *)
Definition draw_chart (fill_default : pandas.fill_method) (vs : view_state)
  : result (option go.Figure) * list display :=
  match vs_selected_series vs with
  | [] => (Ok None, [])
  | _ =>
      match fetch_loop (vs_start_date vs) (vs_end_date vs)
              (vs_selected_series vs) [] with
      | (Raise e, shown) => (Raise e, shown)
      | (Ok df_dict, shown) =>
          match df_dict with
          | [] => (Ok None, shown)
          | _ =>
              match create_plot fill_default df_dict (vs_view_type vs) with
              | Ok fig => (Ok (Some fig), shown)
              | Raise e => (Raise e, shown)
              end
          end
      end
  end.

(** The frame that the loop stores for a name, if the fetch succeeds. *)
Definition fetched (start_date end_date : datetime.date)
    (series_name : string) : option pandas.DataFrame :=
  match dict_getitem CPI_SERIES series_name with
  | Ok series_id =>
      match get_series series_id start_date end_date with
      | Ok s => Some (to_frame s)
      | Raise _ => None
      end
  | Raise _ => None
  end.

(** The error that the loop displays for a name, if the fetch fails. *)
Definition fetch_error (start_date end_date : datetime.date)
    (series_name : string) : option display :=
  match dict_getitem CPI_SERIES series_name with
  | Ok series_id =>
      match get_series series_id start_date end_date with
      | Ok _ => None
      | Raise e => Some (ErrorFetching e)
      end
  | Raise _ => None
  end.

End fetch.

(** *** The characters of a query string *)

(** Every character of [s] satisfies [P]. *)
Fixpoint all_chars (P : ascii -> bool) (s : string) : bool :=
  match s with
  | "" => true
  | String c r => P c && all_chars P r
  end.

(** The characters that [urlencode] writes: the always safe ones and
    [+], [%], [&], [=]. *)
Definition query_char (c : ascii) : bool :=
  urllib.always_safe c || Ascii.eqb c "+" || Ascii.eqb c "%" ||
  Ascii.eqb c "&" || Ascii.eqb c "=".

(** *** Ordinals of one cycle of 400 years *)

(** [ord2ymd] gives a date of the cycle whose ordinal is [o]; the last year
    of the cycle is reached only after day 145731. *)
Definition ord_ok (o : Z) : bool :=
  let d := datetime.ord2ymd o in
  datetime.valid d && (datetime.toordinal d =? o) &&
  (datetime.year d <=? 400) &&
  ((145731 <? o) || (datetime.year d <=? 399)).

Fixpoint all_from (n : nat) (o : Z) : bool :=
  match n with
  | O => true
  | S n => ord_ok o && all_from n (o + 1)
  end.

(** *** A provider for examples *)

(** A provider that has one observation for every series but fails on the
    housing series. *)
Definition example_provider (series_id : string)
    (start_date end_date : datetime.date) : result Series :=
  if String.eqb series_id "CPIHOSSL" then Raise ValueError
  else Ok {| s_index := [start_date]; s_values := [pandas.of_int 100] |}.

Definition example_frame (start_date : datetime.date) : pandas.DataFrame :=
  {| pandas.index := [start_date]; pandas.value := [pandas.of_int 100] |}.

(** * Properties *)

(** ** Dates: formatting and parsing *)

Lemma Z_range_ind (P : Z -> Prop) (lo : Z) (n : nat) :
  (forall i : nat, (i < n)%nat -> P (lo + Z.of_nat i)) ->
  forall z, lo <= z < lo + Z.of_nat n -> P z.
Proof.
  intros H z Hz.
  replace z with (lo + Z.of_nat (Z.to_nat (z - lo))) by lia.
  apply H. lia.
Qed.

Lemma digit_val_digit_char a :
  0 <= a < 10 -> datetime.digit_val (datetime.digit_char a) = Some a.
Proof.
  revert a. apply (Z_range_ind _ 0 10). by_cases_below 10 reflexivity.
Qed.

Lemma digits4 y :
  0 <= y < 10000 ->
  1000 * (y / 1000 mod 10) + 100 * (y / 100 mod 10)
  + 10 * (y / 10 mod 10) + y mod 10 = y.
Proof.
  intros Hy.
  assert (E1 : y / 100 = y / 10 / 10)
    by (rewrite Z.div_div by lia; reflexivity).
  assert (E2 : y / 1000 = y / 10 / 10 / 10)
    by (rewrite !Z.div_div by lia; reflexivity).
  rewrite E2, E1.
  pose proof (Z.div_mod y 10). pose proof (Z.div_mod (y / 10) 10).
  pose proof (Z.div_mod (y / 10 / 10) 10).
  assert (y / 10 / 10 / 10 < 10)
    by (rewrite !Z.div_div by lia; apply Z.div_lt_upper_bound; lia).
  assert (0 <= y / 10 / 10 / 10) by (repeat apply Z.div_pos; lia).
  rewrite (Z.mod_small (y / 10 / 10 / 10) 10) by lia. lia.
Qed.

Lemma re_Y_fmt4 {R} y r (k : Z -> string -> option R) :
  0 <= y < 10000 -> datetime.re_Y (datetime.fmt4 y r) k = k y r.
Proof.
  intros Hy. unfold datetime.re_Y, datetime.fmt4, datetime.fmt2.
  rewrite !digit_val_digit_char by (apply Z.mod_pos_bound; lia).
  by rewrite digits4.
Qed.

(** The month and day part, for each of the 12 * 31 pairs. *)
Lemma re_month_day (y : Z) (i j : nat) :
  (i < 12)%nat -> (j < 31)%nat ->
  let m := 1 + Z.of_nat i in
  let d := 1 + Z.of_nat j in
  datetime.lit "-"
    (String "-" (datetime.fmt2 m (String "-" (datetime.fmt2 d ""))))
    (fun _ s2 =>
       datetime.re_m s2 (fun m' s3 =>
       datetime.lit "-" s3 (fun _ s4 =>
       datetime.re_d s4 (fun d' rest => Some (y, m', d', rest)))))
  = Some (y, m, d, "").
Proof.
  intros Hi Hj.
  do 12 (destruct i as [|i];
         [do 31 (destruct j as [|j]; [reflexivity|]); exfalso; lia|]).
  exfalso; lia.
Qed.

Lemma days_in_month_le y m : datetime.days_in_month y m <= 31.
Proof.
  unfold datetime.days_in_month, datetime.DAYS_IN_MONTH.
  destruct (_ && _); [lia|].
  repeat match goal with
         | |- context [match ?x with _ => _ end] => destruct x
         end; lia.
Qed.

Lemma valid_bounds d :
  datetime.valid d = true ->
  1 <= datetime.year d <= 9999 /\ 1 <= datetime.month d <= 12 /\
  1 <= datetime.day d <= 31.
Proof.
  unfold datetime.valid, datetime.check_date_fields,
    datetime.MINYEAR, datetime.MAXYEAR.
  intros H. apply andb_prop in H as [H H6]. apply andb_prop in H as [H H5].
  apply andb_prop in H as [H H4]. apply andb_prop in H as [H H3].
  apply andb_prop in H as [H1 H2].
  pose proof (days_in_month_le (datetime.year d) (datetime.month d)). lia.
Qed.

(** From the year 1000 on [%Y] gives four digits. *)
Lemma fmt_year_fmt4 y k :
  1000 <= y -> datetime.fmt_year y k = datetime.fmt4 y k.
Proof.
  intros Hy. unfold datetime.fmt_year.
  destruct (Z.ltb_spec y 10); [lia|].
  destruct (Z.ltb_spec y 100); [lia|].
  destruct (Z.ltb_spec y 1000); [lia|]. reflexivity.
Qed.

(** [strptime] reads back what [strftime] wrote for a year of four digits;
    its [%Y] takes four digits and no fewer. *)
Lemma strptime_strftime d :
  datetime.valid d = true -> 1000 <= datetime.year d ->
  datetime.strptime_ymd (datetime.strftime_ymd d) = Ok d.
Proof.
  intros Hv Hy4. destruct (valid_bounds d Hv) as (Hy & Hm & Hd).
  destruct d as [y m dd]; simpl in *.
  unfold datetime.strptime_ymd, datetime.strftime_ymd, datetime.re_match_ymd.
  simpl datetime.year; simpl datetime.month; simpl datetime.day.
  rewrite fmt_year_fmt4 by lia.
  rewrite re_Y_fmt4 by lia.
  pose proof (re_month_day y (Z.to_nat (m - 1)) (Z.to_nat (dd - 1))) as E.
  replace (1 + Z.of_nat (Z.to_nat (m - 1))) with m in E by lia.
  replace (1 + Z.of_nat (Z.to_nat (dd - 1))) with dd in E by lia.
  cbv zeta in E. rewrite E by lia. simpl.
  unfold datetime.valid in Hv; simpl in Hv. by rewrite Hv.
Qed.
Example strptime_ex1 :
  datetime.strptime_ymd "2024-01-15" = Ok (datetime.mkdate 2024 1 15).
Proof. reflexivity. Qed.

(** A year below 1000 is written with fewer digits, and not read back. *)
Example strftime_year_999 :
  datetime.valid (datetime.mkdate 999 1 5) = true /\
  datetime.strftime_ymd (datetime.mkdate 999 1 5) = "999-01-05" /\
  datetime.strptime_ymd "999-01-05" = Raise ValueError /\
  datetime.strptime_ymd "0999-01-05" = Ok (datetime.mkdate 999 1 5).
Proof. repeat split; reflexivity. Qed.

Example strptime_ex2 :
  datetime.strptime_ymd "2024-1-5" = Ok (datetime.mkdate 2024 1 5).
Proof. reflexivity. Qed.

Example strptime_ex3 : datetime.strptime_ymd "2023-02-29" = Raise ValueError.
Proof. reflexivity. Qed.

Example strptime_ex4 : datetime.strptime_ymd "2024-01-155" = Raise ValueError.
Proof. reflexivity. Qed.

Example strftime_ex1 :
  datetime.strftime_ymd (datetime.mkdate 2024 1 5) = "2024-01-05".
Proof. reflexivity. Qed.

Example sub_days_ex1 :
  datetime.sub_days (datetime.mkdate 2026 11 4) 1825
  = Ok (datetime.mkdate 2021 11 5).
Proof. reflexivity. Qed.
(** ** Strings *)

Lemma split_nonempty sep s : str.split sep s <> [].
Proof. destruct s as [|c s]; simpl; [done|]. by repeat case_match. Qed.

Lemma split_no_sep sep a : str.has sep a = false -> str.split sep a = [a].
Proof.
  induction a as [|c a IH]; simpl; [done|].
  intros [Hc Ha]%orb_false_elim. rewrite Hc, (IH Ha). done.
Qed.

Lemma split_app_sep sep a b :
  str.has sep a = false ->
  str.split sep (a +:+ String sep b) = a :: str.split sep b.
Proof.
  induction a as [|c a IH]; simpl.
  - intros _. by rewrite Ascii.eqb_refl.
  - intros [Hc Ha]%orb_false_elim. by rewrite Hc, (IH Ha).
Qed.

Lemma partition_app_sep sep a b :
  str.has sep a = false ->
  str.partition sep (a +:+ String sep b) = (a, true, b).
Proof.
  induction a as [|c a IH]; simpl.
  - intros _. by rewrite Ascii.eqb_refl.
  - intros [Hc Ha]%orb_false_elim. by rewrite Hc, (IH Ha).
Qed.

Lemma partition_no_sep sep a :
  str.has sep a = false -> str.partition sep a = (a, false, "").
Proof.
  induction a as [|c a IH]; simpl; [done|].
  intros [Hc Ha]%orb_false_elim. by rewrite Hc, (IH Ha).
Qed.

(** The text before the first separator, when a prefix holds one. *)
Lemma partition_has_app sep a b :
  str.has sep a = true ->
  fst (fst (str.partition sep (a +:+ b))) = fst (fst (str.partition sep a)).
Proof.
  induction a as [|c a IH]; simpl; [done|].
  destruct (Ascii.eqb c sep); [done|]. simpl. intros Ha. specialize (IH Ha).
  destruct (str.partition sep (a +:+ b)) as [[x f] y].
  destruct (str.partition sep a) as [[x' f'] y']. simpl in *. by subst.
Qed.

Lemma partition_fst_has c sep a :
  str.has c a = false -> str.has c (fst (fst (str.partition sep a))) = false.
Proof.
  induction a as [|x a IH]; simpl; [done|].
  intros [Hx Ha]%orb_false_elim. specialize (IH Ha).
  destruct (Ascii.eqb x sep); [done|].
  destruct (str.partition sep a) as [[y f] z]. simpl in *.
  by rewrite Hx, IH.
Qed.

Lemma split_hd_no_sep sep s x xs :
  str.split sep s = x :: xs -> str.has sep x = false.
Proof.
  revert x xs. induction s as [|c s IH]; simpl; intros x xs.
  - by intros [= <- <-].
  - destruct (Ascii.eqb c sep) eqn:Hc; [by intros [= <- <-]|].
    destruct (str.split sep s) as [|y ys] eqn:Hs.
    + intros [= <- <-]. simpl. by rewrite Hc.
    + intros [= <- <-]. simpl. rewrite Hc. by eapply IH.
Qed.

Lemma split_join sep items :
  Forall (fun i => str.has sep i = false) items -> items <> [] ->
  str.split sep (str.join (String sep "") items) = items.
Proof.
  induction 1 as [|i items Hi Hall IH]; [done|]. intros _.
  destruct items as [|j items].
  - by apply split_no_sep.
  - change (str.join (String sep "") (i :: j :: items))
      with (i +:+ String sep (str.join (String sep "") (j :: items))).
    rewrite split_app_sep by done. f_equal. by apply IH.
Qed.

Lemma has_cons c x a : str.has c (String x a) = Ascii.eqb x c || str.has c a.
Proof. reflexivity. Qed.

Lemma has_app c a b : str.has c (a +:+ b) = str.has c a || str.has c b.
Proof. induction a as [|x a IH]; simpl; [done|]. by rewrite IH, orb_assoc. Qed.

Lemma isascii_app a b :
  str.isascii (a +:+ b) = str.isascii a && str.isascii b.
Proof. induction a as [|x a IH]; simpl; [done|]. by rewrite IH, andb_assoc. Qed.

(** ** [quote_plus] and [unquote] *)

Lemma quote_plus_has_amp s : str.has "&" (urllib.quote_plus s) = false.
Proof.
  induction s as [|c s IH]; [done|].
  destruct c as [[] [] [] [] [] [] [] []]; exact IH.
Qed.

Lemma quote_plus_has_eq s : str.has "=" (urllib.quote_plus s) = false.
Proof.
  induction s as [|c s IH]; [done|].
  destruct c as [[] [] [] [] [] [] [] []]; exact IH.
Qed.

Lemma unquote_quote_plus s :
  str.isascii s = true ->
  urllib.unquote (str.replace "+" " " (urllib.quote_plus s)) = Some s.
Proof.
  induction s as [|c s IH]; [done|].
  intros [Hc Hs]%andb_prop. specialize (IH Hs).
  destruct c as [[] [] [] [] [] [] [] []]; try discriminate Hc;
    cbn -[urllib.unquote urllib.quote_plus str.replace];
    cbn [urllib.unquote str.replace]; simpl; by rewrite IH.
Qed.
(** ** [urlencode] followed by [parse_qsl] *)

Lemma urlencode_items_pairs query :
  urllib.urlencode_items query = map quote_item (query_pairs query).
Proof.
  unfold urllib.urlencode_items, query_pairs.
  induction query as [|[k v] query IH]; [done|].
  simpl. rewrite map_app, <- IH. f_equal.
  destruct v as [s|l]; [done|]. simpl. by rewrite map_map.
Qed.

Lemma quote_item_has_amp kv : str.has "&" (quote_item kv) = false.
Proof.
  unfold quote_item. rewrite has_app. simpl.
  by rewrite !quote_plus_has_amp.
Qed.

Lemma quote_item_truthy kv : str.truthy (quote_item kv) = true.
Proof.
  unfold quote_item. by destruct (urllib.quote_plus (fst kv)).
Qed.

Lemma parse_quote_item kv :
  str.isascii (fst kv) = true -> str.isascii (snd kv) = true ->
  (let '(name, _, value) := str.partition "=" (quote_item kv) in
   n ← urllib.unquote (str.replace "+" " " name);
   v ← urllib.unquote (str.replace "+" " " value);
   Some (n, v)) = Some kv.
Proof.
  intros Hk Hv. unfold quote_item.
  rewrite partition_app_sep by apply quote_plus_has_eq.
  rewrite !unquote_quote_plus by done. by destruct kv.
Qed.

Lemma parse_qsl_items pairs :
  Forall (fun kv => str.isascii (fst kv) = true /\
                    str.isascii (snd kv) = true) pairs ->
  urllib.parse_qsl (str.join "&" (map quote_item pairs)) = Some pairs.
Proof.
  intros Hall. unfold urllib.parse_qsl.
  assert (Hitems :
    filter (fun nv => str.truthy nv = true)
      (str.split "&" (str.join "&" (map quote_item pairs)))
    = map quote_item pairs).
  { destruct pairs as [|kv pairs]; [done|].
    rewrite split_join; [| |done].
    - clear Hall. generalize (kv :: pairs). intros l.
      induction l as [|x l IH]; [done|]. simpl.
      rewrite filter_cons_True by apply quote_item_truthy. by rewrite IH.
    - apply List.Forall_forall. intros i [x [<- _]]%in_map_iff.
      apply quote_item_has_amp. }
  rewrite Hitems. clear Hitems.
  induction Hall as [|kv pairs [Hk Hv] _ IH]; [done|].
  cbn [map mapM]. rewrite (parse_quote_item _ Hk Hv). simpl.
  rewrite IH. done.
Qed.

Lemma query_pairs_isascii query :
  Forall (fun kv => str.isascii (fst kv) = true /\
                    qvalue_isascii (snd kv) = true) query ->
  Forall (fun kv => str.isascii (fst kv) = true /\
                    str.isascii (snd kv) = true) (query_pairs query).
Proof.
  unfold query_pairs. induction 1 as [|[k v] query [Hk Hv] _ IH]; [done|].
  simpl. apply Forall_app. split; [|done].
  destruct v as [s|l]; simpl in *.
  - by repeat constructor.
  - apply List.Forall_forall. intros x [e [<- He]]%in_map_iff. simpl.
    split; [done|]. rewrite forallb_forall in Hv. by apply Hv.
Qed.

(** [parse_qsl] undoes [urlencode] on ASCII text. *)
Lemma parse_qsl_urlencode query :
  Forall (fun kv => str.isascii (fst kv) = true /\
                    qvalue_isascii (snd kv) = true) query ->
  urllib.parse_qsl (urllib.urlencode query) = Some (query_pairs query).
Proof.
  intros H. unfold urllib.urlencode. rewrite urlencode_items_pairs.
  by apply parse_qsl_items, query_pairs_isascii.
Qed.
(** ** The grouping of [parse_qs] *)

Lemma group_same_key k (l vs : list string) (m : gmap string (list string)) :
  m !! k = Some vs ->
  fold_left urllib.group_step (map (pair k) l) m = <[k := vs ++ l]> m.
Proof.
  revert vs m. induction l as [|x l IH]; intros vs m Hm; simpl.
  - rewrite app_nil_r. symmetry. by apply insert_id.
  - unfold urllib.group_step at 2. simpl. rewrite Hm.
    rewrite (IH (vs ++ [x])) by apply lookup_insert_eq.
    by rewrite insert_insert_eq, <- app_assoc.
Qed.

Lemma group_fresh_key k (l : list string) (m : gmap string (list string)) :
  m !! k = None ->
  fold_left urllib.group_step (map (pair k) l) m
  = match l with [] => m | _ => <[k := l]> m end.
Proof.
  intros Hm. destruct l as [|x l]; [done|]. simpl.
  unfold urllib.group_step at 2. simpl. rewrite Hm.
  rewrite (group_same_key k l [x]) by apply lookup_insert_eq.
  by rewrite insert_insert_eq.
Qed.

Lemma group_step_fresh k v (m : gmap string (list string)) :
  m !! k = None -> urllib.group_step m (k, v) = <[k := [v]]> m.
Proof. intros Hm. unfold urllib.group_step. simpl. by rewrite Hm. Qed.

(** The parameters that [parse_qs] finds in a shared URL. *)
Lemma group_pairs_share (a b v : string) (sel : list string) :
  let q := urllib.group_pairs
             (("start_date", a) :: ("end_date", b)
              :: map (pair "series") sel ++ [("view_type", v)]) in
  q !! "start_date" = Some [a] /\ q !! "end_date" = Some [b] /\
  q !! "series" = (match sel with [] => None | _ => Some sel end) /\
  q !! "view_type" = Some [v].
Proof.
  unfold urllib.group_pairs.
  cbn [fold_left]. rewrite fold_left_app. cbn [fold_left].
  rewrite (group_step_fresh "start_date" a ∅) by apply lookup_empty.
  rewrite (group_step_fresh "end_date" b)
    by (by rewrite lookup_insert_ne, lookup_empty by done).
  rewrite group_fresh_key
    by (by rewrite !lookup_insert_ne, lookup_empty by done).
  destruct sel as [|x sel].
  - rewrite (group_step_fresh "view_type" v)
      by (by rewrite !lookup_insert_ne, lookup_empty by done).
    by rewrite !lookup_insert_ne, ?lookup_insert_eq, ?lookup_empty by done.
  - rewrite (group_step_fresh "view_type" v)
      by (by rewrite !lookup_insert_ne, lookup_empty by done).
    by rewrite !lookup_insert_ne, ?lookup_insert_eq by done.
Qed.

(** ** [get_url_params], field by field *)

Lemma strptime_raises s e :
  datetime.strptime_ymd s = Raise e -> e = ValueError.
Proof.
  unfold datetime.strptime_ymd. repeat case_match; congruence.
Qed.

Lemma len_gt_truthy s : (5 <? str.len s) = true -> str.truthy s = true.
Proof. by destruct s. Qed.

Lemma parse_date_str_eq w date_str :
  parse_date_str w date_str = (Ok (date_of date_str), date_warnings w date_str).
Proof.
  unfold parse_date_str, date_of, date_warnings.
  destruct date_str as [s|]; [|done].
  destruct (5 <? str.len s) eqn:Hlen.
  - rewrite (len_gt_truthy s Hlen). cbn [andb].
    destruct (datetime.strptime_ymd s) as [d|e] eqn:Hp; [done|].
    by rewrite (strptime_raises s e Hp).
  - by rewrite andb_false_r.
Qed.

Lemma fold_add_valid_series all_series acc :
  fold_left add_valid_series all_series acc
  = acc ++ List.filter (contains CPI_SERIES)
             (map (str.replace "+" " ") all_series).
Proof.
  revert acc. induction all_series as [|s l IH]; intros acc;
    cbn [fold_left map List.filter].
  - by rewrite app_nil_r.
  - rewrite IH. unfold add_valid_series.
    destruct (contains CPI_SERIES (str.replace "+" " " s)); [|done].
    by rewrite <- app_assoc.
Qed.

Lemma get_url_params_try_eq qp :
  get_url_params_try qp
  = (Ok {| start_date := date_of (st.getitem qp "start_date");
           end_date := date_of (st.getitem qp "end_date");
           series := series_of (st.get_all qp "series");
           view_type := view_of (st.getitem qp "view_type") |},
     date_warnings InvalidStartDate (st.getitem qp "start_date")
     ++ date_warnings InvalidEndDate (st.getitem qp "end_date")).
Proof.
  unfold get_url_params_try, bind, ret.
  replace (st.get qp "start_date" Some None)
    with (st.getitem qp "start_date")
    by (unfold st.get; by destruct (st.getitem qp "start_date")).
  replace (st.get qp "end_date" Some None)
    with (st.getitem qp "end_date")
    by (unfold st.get; by destruct (st.getitem qp "end_date")).
  rewrite !parse_date_str_eq, fold_add_valid_series.
  cbn [app]. rewrite app_nil_r. f_equal. f_equal. f_equal.
  - unfold series_of. by destruct (List.filter _ _).
  - unfold view_of, st.get, id.
    destruct (st.getitem qp "view_type") as [v|]; [|reflexivity].
    by destruct (is_in v VIEW_TYPES).
Qed.

Lemma get_url_params_eq qp : get_url_params qp = get_url_params_try qp.
Proof. unfold get_url_params. by rewrite get_url_params_try_eq. Qed.
(** ** The shared URL *)

Lemma digit_char_ascii a :
  0 <= a < 10 -> (str.code (datetime.digit_char a) <? 128) = true.
Proof.
  revert a. apply (Z_range_ind _ 0 10). by_cases_below 10 reflexivity.
Qed.

Lemma strftime_isascii d : str.isascii (datetime.strftime_ymd d) = true.
Proof.
  unfold datetime.strftime_ymd, datetime.fmt_year, datetime.fmt4,
    datetime.fmt2.
  repeat case_match; cbn [str.isascii];
    rewrite !digit_char_ascii by (apply Z.mod_pos_bound; lia); reflexivity.
Qed.

Lemma strftime_len d :
  1000 <= datetime.year d -> str.len (datetime.strftime_ymd d) = 10.
Proof.
  intros Hy. unfold datetime.strftime_ymd. by rewrite fmt_year_fmt4.
Qed.

Lemma contains_keys {V} (d : dict V) k :
  contains d k = true -> In k (keys d).
Proof.
  unfold contains, keys. intros [[k' v] [Hin Heq]]%existsb_exists.
  apply String.eqb_eq in Heq. subst. apply in_map_iff. by exists (k', v).
Qed.

Lemma is_in_In x l : is_in x l = true -> In x l.
Proof.
  unfold is_in. intros [y [Hin Heq]]%existsb_exists.
  apply String.eqb_eq in Heq. by subst.
Qed.

(** The facts about a catalog name that the codec relies on: it is ASCII
    text and holds no [+]. *)
Lemma catalog_name s :
  contains CPI_SERIES s = true ->
  str.isascii s = true /\ str.replace "+" " " s = s.
Proof.
  intros H%contains_keys. simpl in H.
  repeat (destruct H as [<-|H]; [by split|]). done.
Qed.

Lemma view_type_isascii v : is_in v VIEW_TYPES = true -> str.isascii v = true.
Proof.
  intros H%is_in_In. simpl in H.
  repeat (destruct H as [<-|H]; [done|]). done.
Qed.

Lemma filter_catalog sel :
  Forall (fun s => contains CPI_SERIES s = true) sel ->
  List.filter (contains CPI_SERIES) (map (str.replace "+" " ") sel) = sel.
Proof.
  induction 1 as [|s sel Hs _ IH]; [done|]. cbn [map List.filter].
  destruct (catalog_name s Hs) as [_ ->]. by rewrite Hs, IH.
Qed.

Lemma generate_share_url_eq qp a b sel v :
  generate_share_url qp a b sel v
  = base_url qp +:+ String "?" (urllib.urlencode (share_params a b sel v)).
Proof. reflexivity. Qed.

Lemma base_url_no_qmark qp : str.has "?" (base_url qp) = false.
Proof.
  unfold base_url. destruct (str.truthy _); [|done].
  destruct (str.split "?" _) as [|x xs] eqn:Hs; [done|].
  by eapply split_hd_no_sep.
Qed.

(** The text after the first [?] of the share URL is the encoded
    parameters, whatever the base is. *)
Lemma after_qmark_share_url qp a b sel v :
  snd (str.partition "?" (generate_share_url qp a b sel v))
  = urllib.urlencode (share_params a b sel v).
Proof.
  rewrite generate_share_url_eq.
  by rewrite partition_app_sep by apply base_url_no_qmark.
Qed.

Lemma quote_plus_has_hash s : str.has "#" (urllib.quote_plus s) = false.
Proof.
  induction s as [|c s IH]; [done|].
  destruct c as [[] [] [] [] [] [] [] []]; exact IH.
Qed.

Lemma urlencode_has_hash query :
  str.has "#" (urllib.urlencode query) = false.
Proof.
  unfold urllib.urlencode. rewrite urlencode_items_pairs.
  induction (query_pairs query) as [|kv items IH]; [done|].
  assert (Hitem : str.has "#" (quote_item kv) = false).
  { unfold quote_item. rewrite has_app. simpl.
    by rewrite !quote_plus_has_hash. }
  destruct items as [|kv' items]; [exact Hitem|].
  change (str.join "&" (map quote_item (kv :: kv' :: items)))
    with (quote_item kv
          +:+ String "&" (str.join "&" (map quote_item (kv' :: items)))).
  rewrite has_app, Hitem. simpl. exact IH.
Qed.

(** With no [#] in the base the query of the share URL is the encoded
    parameters. *)
Lemma query_string_share_url qp a b sel v :
  str.has "#" (base_url qp) = false ->
  query_string (generate_share_url qp a b sel v)
  = urllib.urlencode (share_params a b sel v).
Proof.
  intros Hb. unfold query_string.
  rewrite (partition_no_sep "#").
  - apply after_qmark_share_url.
  - rewrite generate_share_url_eq, has_app, Hb, has_cons.
    apply urlencode_has_hash.
Qed.

(** With a [#] in the base the parameters are in the fragment, and the share
    URL has no query. *)
Lemma query_string_fragment qp a b sel v :
  str.has "#" (base_url qp) = true ->
  query_string (generate_share_url qp a b sel v) = "".
Proof.
  intros Hb. unfold query_string.
  rewrite generate_share_url_eq, partition_has_app by done.
  rewrite partition_no_sep; [done|].
  apply partition_fst_has, base_url_no_qmark.
Qed.

(** The parameters that Streamlit reads from a shared URL. *)
Lemma parse_share_url qp a b sel v :
  str.has "#" (base_url qp) = false ->
  forallb str.isascii sel = true -> str.isascii v = true ->
  exists q : gmap string (list string),
    urllib.parse_qs (query_string (generate_share_url qp a b sel v)) = Some q /\
    q !! "start_date" = Some [datetime.strftime_ymd a] /\
    q !! "end_date" = Some [datetime.strftime_ymd b] /\
    q !! "series" = (match sel with [] => None | _ => Some sel end) /\
    q !! "view_type" = Some [v].
Proof.
  intros Hbase Hsel Hv.
  rewrite query_string_share_url by done. unfold urllib.parse_qs.
  rewrite parse_qsl_urlencode.
  2:{ unfold share_params.
      repeat constructor; cbn [fst snd qvalue_isascii];
        auto using strftime_isascii. }
  cbn [fmap option_fmap option_map].
  unfold share_params, query_pairs. cbn [flat_map fst snd app].
  eexists. split; [reflexivity|]. apply group_pairs_share.
Qed.

(** What decoding a shared URL gives, field by field. *)
Lemma decode_share_url_eq qp a b sel v :
  str.has "#" (base_url qp) = false ->
  forallb str.isascii sel = true -> str.isascii v = true ->
  decode_share_url qp a b sel v
  = Some (Ok {| start_date := date_of (Some (datetime.strftime_ymd a));
                end_date := date_of (Some (datetime.strftime_ymd b));
                series := series_of sel;
                view_type := view_of (Some v) |},
          date_warnings InvalidStartDate (Some (datetime.strftime_ymd a))
          ++ date_warnings InvalidEndDate (Some (datetime.strftime_ymd b))).
Proof.
  intros Hbase Hsel Hv. unfold decode_share_url.
  destruct (parse_share_url qp a b sel v Hbase Hsel Hv)
    as (q & -> & H1 & H2 & H3 & H4).
  cbn [fmap option_fmap option_map].
  rewrite get_url_params_eq, get_url_params_try_eq.
  unfold st.getitem, st.get_all. rewrite H1, H2, H3, H4. cbn [List.last].
  by destruct sel.
Qed.

Lemma date_of_strftime d :
  datetime.valid d = true -> 1000 <= datetime.year d ->
  date_of (Some (datetime.strftime_ymd d)) = Some d /\
  forall w, date_warnings w (Some (datetime.strftime_ymd d)) = [].
Proof.
  intros Hd Hy. unfold date_of, date_warnings.
  rewrite strftime_len, strptime_strftime by done. done.
Qed.

Lemma selection_isascii sel :
  Forall (fun s => contains CPI_SERIES s = true) sel ->
  forallb str.isascii sel = true.
Proof.
  intros H. apply forallb_forall. intros s Hs.
  rewrite List.Forall_forall in H. by apply catalog_name, H.
Qed.

(** C1, as amended: for every state whose selection is not empty and made of
    catalog names, whose view type is one of the three labels and whose
    dates are calendar dates of the year 1000 or later, on a page whose
    current URL has no [#] before its first [?], decoding the query of the
    URL that [generate_share_url] builds gives the state back, without a
    warning. *)
Theorem share_url_roundtrip qp a b sel v :
  datetime.valid a = true -> datetime.valid b = true ->
  1000 <= datetime.year a -> 1000 <= datetime.year b ->
  str.has "#" (base_url qp) = false ->
  sel <> [] ->
  Forall (fun s => contains CPI_SERIES s = true) sel ->
  is_in v VIEW_TYPES = true ->
  share_roundtrip qp a b sel v.
Proof.
  intros Ha Hb Hya Hyb Hbase Hne Hsel Hv. unfold share_roundtrip.
  rewrite decode_share_url_eq
    by auto using selection_isascii, view_type_isascii.
  destruct (date_of_strftime a Ha Hya) as [-> ->].
  destruct (date_of_strftime b Hb Hyb) as [-> ->].
  unfold series_of, view_of. rewrite filter_catalog, Hv by done.
  by destruct sel.
Qed.

Lemma share_url_roundtrip_witness :
  share_roundtrip {["_url" := ["http://localhost:8501/?view_type=Both"]]}
    (datetime.mkdate 2020 1 5) (datetime.mkdate 2024 12 31)
    ["All Items"; "Housing"] "Year-over-Year Changes".
Proof.
  apply share_url_roundtrip.
  - reflexivity.
  - reflexivity.
  - simpl. lia.
  - simpl. lia.
  - reflexivity.
  - discriminate.
  - repeat constructor.
  - reflexivity.
Defined.

(** C1, as stated, fails on the empty selection: its names are all catalog
    names, and the decoder answers the default pair.  The dates are of this
    century and the page has no [_url] parameter. *)
Lemma share_roundtrip_empty_selection :
  datetime.valid (datetime.mkdate 2020 1 5) = true /\
  datetime.valid (datetime.mkdate 2024 12 31) = true /\
  Forall (fun s => contains CPI_SERIES s = true) [] /\
  is_in "Both" VIEW_TYPES = true /\
  ~ share_roundtrip ∅ (datetime.mkdate 2020 1 5) (datetime.mkdate 2024 12 31)
      [] "Both".
Proof.
  split; [reflexivity|]. split; [reflexivity|]. split; [constructor|].
  split; [reflexivity|].
  unfold share_roundtrip. rewrite decode_share_url_eq by reflexivity.
  intros H.
  apply (f_equal (fun r => match r with
                          | Some (Ok p, _) => series p
                          | _ => []
                          end)) in H.
  discriminate H.
Qed.

(** The two bounds of the amended claim are needed.  A date of the year 999
    is written [999-01-05], which [strptime] refuses: the decoder warns and
    gives no start date. *)
Example share_roundtrip_year_999 :
  datetime.valid (datetime.mkdate 999 1 5) = true /\
  decode_share_url ∅ (datetime.mkdate 999 1 5) (datetime.mkdate 2024 12 31)
    ["Housing"] "Both"
  = Some (Ok {| start_date := None;
                end_date := Some (datetime.mkdate 2024 12 31);
                series := ["Housing"];
                view_type := "Both" |},
          [InvalidStartDate "999-01-05"]).
Proof.
  split; [reflexivity|]. by rewrite decode_share_url_eq by reflexivity.
Qed.

(** On a page whose current URL has a [#] before any [?] the parameters of
    the share URL are in its fragment: the URL has no query, and the page
    opened on it shows the defaults. *)
Example share_roundtrip_fragment :
  generate_share_url {["_url" := ["http://localhost:8501/#top"]]}
    (datetime.mkdate 2020 1 5) (datetime.mkdate 2024 12 31) ["Housing"] "Both"
  = "http://localhost:8501/#top?start_date=2020-01-05&end_date=2024-12-31&series=Housing&view_type=Both" /\
  decode_share_url {["_url" := ["http://localhost:8501/#top"]]}
    (datetime.mkdate 2020 1 5) (datetime.mkdate 2024 12 31) ["Housing"] "Both"
  = Some (Ok {| start_date := None;
                end_date := None;
                series := ["All Items"; "All Items Less Food and Energy"];
                view_type := "Index Values" |}, []).
Proof.
  split; [reflexivity|].
  unfold decode_share_url. by rewrite query_string_fragment by reflexivity.
Qed.

Lemma quote_plus_safe s :
  forallb urllib.always_safe (list_ascii_of_string s) = true ->
  urllib.quote_plus s = s.
Proof.
  induction s as [|c s IH]; [done|]. cbn [list_ascii_of_string forallb].
  intros [Hc Hs]%andb_prop. cbn [urllib.quote_plus]. by rewrite Hc, IH.
Qed.

Lemma digit_char_safe a :
  0 <= a < 10 -> urllib.always_safe (datetime.digit_char a) = true.
Proof.
  revert a. apply (Z_range_ind _ 0 10). by_cases_below 10 reflexivity.
Qed.

Lemma quote_plus_strftime d :
  urllib.quote_plus (datetime.strftime_ymd d) = datetime.strftime_ymd d.
Proof.
  apply quote_plus_safe.
  unfold datetime.strftime_ymd, datetime.fmt_year, datetime.fmt4,
    datetime.fmt2.
  repeat case_match; cbn [list_ascii_of_string forallb];
    rewrite !digit_char_safe by (apply Z.mod_pos_bound; lia); reflexivity.
Qed.

(** What Streamlit finds in the query of a share URL made for the empty
    selection has no [series] parameter, whatever the base is. *)
Lemma parse_share_url_empty qp a b v :
  str.isascii v = true ->
  exists q : gmap string (list string),
    urllib.parse_qs (query_string (generate_share_url qp a b [] v)) = Some q /\
    q !! "series" = None.
Proof.
  intros Hv. destruct (str.has "#" (base_url qp)) eqn:Hbase.
  - rewrite query_string_fragment by done. by exists ∅.
  - destruct (parse_share_url qp a b [] v Hbase eq_refl Hv)
      as (q & Hq & _ & _ & H3 & _).
    by exists q.
Qed.

(** C10: with an empty selection the text after the first [?] of the shared
    URL is made of the two dates and the view type, with no [series]
    parameter, and it is the query of the URL when the base has no [#];
    whatever the base is, Streamlit finds no [series] parameter in the query
    of the URL, and the decoder answers the default pair, which is not the
    empty selection. *)
Theorem empty_selection_not_shared qp a b v :
  str.isascii v = true ->
  snd (str.partition "?" (generate_share_url qp a b [] v))
  = "start_date=" +:+ datetime.strftime_ymd a
    +:+ "&end_date=" +:+ datetime.strftime_ymd b
    +:+ "&view_type=" +:+ urllib.quote_plus v /\
  (str.has "#" (base_url qp) = false ->
   query_string (generate_share_url qp a b [] v)
   = snd (str.partition "?" (generate_share_url qp a b [] v))) /\
  exists (q : gmap string (list string)) p ws,
    urllib.parse_qs (query_string (generate_share_url qp a b [] v)) = Some q /\
    q !! "series" = None /\
    get_url_params q = (Ok p, ws) /\
    series p = ["All Items"; "All Items Less Food and Energy"] /\
    series p <> [].
Proof.
  intros Hv. split; [|split].
  - rewrite after_qmark_share_url.
    unfold urllib.urlencode, urllib.urlencode_items, share_params.
    cbn [flat_map fst snd map app str.join].
    rewrite !quote_plus_strftime. reflexivity.
  - intros Hbase.
    by rewrite query_string_share_url, after_qmark_share_url.
  - destruct (parse_share_url_empty qp a b v Hv) as (q & Hq & H3).
    exists q. eexists. eexists. split; [done|]. split; [done|].
    rewrite get_url_params_eq, get_url_params_try_eq.
    split; [reflexivity|]. cbn [series]. unfold st.get_all. rewrite H3.
    by split.
Qed.

Lemma empty_selection_not_shared_witness :
  str.isascii "Both" = true /\
  exists (q : gmap string (list string)) p ws,
    urllib.parse_qs
      (query_string
         (generate_share_url ∅ (datetime.mkdate 2020 1 5)
            (datetime.mkdate 2024 12 31) [] "Both")) = Some q /\
    q !! "series" = None /\
    get_url_params q = (Ok p, ws) /\
    series p = ["All Items"; "All Items Less Food and Energy"] /\
    series p <> [].
Proof.
  split; [reflexivity|].
  apply (proj2 (proj2 (empty_selection_not_shared ∅ (datetime.mkdate 2020 1 5)
                         (datetime.mkdate 2024 12 31) "Both" eq_refl))).
Defined.

(** ** The decoder *)

Lemma strptime_valid s d :
  datetime.strptime_ymd s = Ok d -> datetime.valid d = true.
Proof.
  unfold datetime.strptime_ymd. repeat case_match; try discriminate.
  by intros [= <-].
Qed.

Lemma date_of_valid o d : date_of o = Some d -> datetime.valid d = true.
Proof.
  unfold date_of. repeat case_match; try discriminate.
  intros [= <-]. by eapply strptime_valid.
Qed.

Lemma series_of_valid l :
  series_of l <> [] /\
  Forall (fun s => contains CPI_SERIES s = true) (series_of l).
Proof.
  unfold series_of.
  destruct (List.filter _ _) as [|x xs] eqn:Hf.
  - split; [done|]. by repeat constructor.
  - split; [done|]. rewrite <- Hf. apply List.Forall_forall.
    intros s Hs. by apply filter_In in Hs as [_ Hs].
Qed.

Lemma view_of_valid o : is_in (view_of o) VIEW_TYPES = true.
Proof.
  unfold view_of. destruct o as [v|]; [|done].
  by destruct (is_in v VIEW_TYPES) eqn:Hv.
Qed.

Lemma get_url_params_valid qp :
  exists p ws, get_url_params qp = (Ok p, ws) /\ params_valid p.
Proof.
  eexists. eexists.
  split; [rewrite get_url_params_eq; apply get_url_params_try_eq|].
  unfold params_valid. cbn [start_date end_date series view_type].
  split; [apply date_of_valid|]. split; [apply date_of_valid|].
  split; [apply series_of_valid|]. split; [apply series_of_valid|].
  apply view_of_valid.
Qed.

(** C2: on every mapping of query parameters the body of [get_url_params]
    returns without raising, so the function returns that value; every
    field of the value lies in its domain; and each field is read from its
    own parameter alone, a value that is missing or not valid giving the
    default of that field. *)
Theorem get_url_params_total (qp : st.query_params) :
  exists p ws,
    get_url_params_try qp = (Ok p, ws) /\
    get_url_params qp = (Ok p, ws) /\
    params_valid p /\
    p = {| start_date := date_of (st.getitem qp "start_date");
           end_date := date_of (st.getitem qp "end_date");
           series := series_of (st.get_all qp "series");
           view_type := view_of (st.getitem qp "view_type") |} /\
    date_of None = None /\
    series_of [] = ["All Items"; "All Items Less Food and Energy"] /\
    view_of None = "Index Values" /\
    (forall s e, datetime.strptime_ymd s = Raise e -> date_of (Some s) = None) /\
    (forall l, Forall (fun s => contains CPI_SERIES (str.replace "+" " " s)
                                = false) l ->
               series_of l = ["All Items"; "All Items Less Food and Energy"]) /\
    (forall v, is_in v VIEW_TYPES = false -> view_of (Some v) = "Index Values").
Proof.
  eexists. eexists.
  split; [apply get_url_params_try_eq|].
  split; [rewrite get_url_params_eq; apply get_url_params_try_eq|].
  split.
  { unfold params_valid. cbn [start_date end_date series view_type].
    split; [apply date_of_valid|]. split; [apply date_of_valid|].
    split; [apply series_of_valid|]. split; [apply series_of_valid|].
    apply view_of_valid. }
  split; [reflexivity|]. split; [reflexivity|]. split; [reflexivity|].
  split; [reflexivity|]. split; [|split].
  - intros s e He. unfold date_of. rewrite He. by destruct (5 <? str.len s).
  - intros l Hl. unfold series_of.
    replace (List.filter (contains CPI_SERIES) (map (str.replace "+" " ") l))
      with (@nil string); [done|].
    induction Hl as [|s l Hs _ IH]; [done|]. cbn [map List.filter].
    by rewrite Hs.
  - intros v Hv. unfold view_of. by rewrite Hv.
Qed.

Lemma get_url_params_total_witness :
  datetime.strptime_ymd "2024-02-30" = Raise ValueError /\
  date_of (Some "2024-02-30") = None /\
  Forall (fun s => contains CPI_SERIES (str.replace "+" " " s) = false)
    ["Bogus"; "all+items"] /\
  series_of ["Bogus"; "all+items"]
  = ["All Items"; "All Items Less Food and Energy"] /\
  is_in "both" VIEW_TYPES = false /\
  view_of (Some "both") = "Index Values".
Proof.
  destruct (get_url_params_total ∅)
    as (p & ws & _ & _ & _ & _ & _ & _ & _ & Hd & Hs & Hv).
  split; [reflexivity|].
  split; [apply (Hd "2024-02-30" ValueError); reflexivity|].
  assert (Hall : Forall (fun s => contains CPI_SERIES (str.replace "+" " " s)
                                  = false) ["Bogus"; "all+items"])
    by (repeat constructor).
  split; [exact Hall|]. split; [exact (Hs _ Hall)|].
  split; [reflexivity|]. apply Hv. reflexivity.
Defined.


(** The examples of the specification: a value that is no catalog name is
    dropped, and a page without query parameters gets the defaults. *)
Example series_filter_example :
  (get_url_params <$> urllib.parse_qs "series=All+Items&series=Bogus")
  = Some (Ok {| start_date := None; end_date := None;
                series := ["All Items"]; view_type := "Index Values" |}, []).
Proof. reflexivity. Qed.

Example fallback_defaults_example :
  get_url_params ∅
  = (Ok {| start_date := None; end_date := None;
           series := ["All Items"; "All Items Less Food and Energy"];
           view_type := "Index Values" |}, []).
Proof. reflexivity. Qed.

(** ** Dates of the URL *)

Lemma date_param_read_eq w o :
  date_param_read w o (date_of o) (date_warnings w o).
Proof.
  unfold date_of, date_warnings. destruct o as [s|]; [|constructor].
  destruct (5 <? str.len s) eqn:Hlen.
  - apply Z.ltb_lt in Hlen.
    destruct (datetime.strptime_ymd s) as [d|e] eqn:Hp.
    + by apply read_parsed.
    + by eapply read_failed.
  - apply Z.ltb_ge in Hlen. by apply read_short.
Qed.

(** C8, as amended: a date parameter is parsed only when its value is longer
    than five characters; a value that does not parse gives a warning and no
    date, and never an exception; without a date the start widget takes the
    day 365 * 5 days before today and the end widget takes today. *)
Theorem date_params_guarded (qp : st.query_params) (now : datetime.date) :
  exists p ws1 ws2,
    get_url_params qp = (Ok p, ws1 ++ ws2) /\
    date_param_read InvalidStartDate (st.getitem qp "start_date")
      (start_date p) ws1 /\
    date_param_read InvalidEndDate (st.getitem qp "end_date")
      (end_date p) ws2 /\
    (start_date p = None ->
     default_start now p = datetime.sub_days now 1825) /\
    (end_date p = None -> default_end now p = now).
Proof.
  eexists. eexists. eexists.
  split; [rewrite get_url_params_eq; apply get_url_params_try_eq|].
  cbn [start_date end_date].
  split; [apply date_param_read_eq|]. split; [apply date_param_read_eq|].
  split.
  - intros H. unfold default_start. cbn [start_date]. by rewrite H.
  - intros H. unfold default_end. cbn [end_date]. by rewrite H.
Qed.

Lemma date_params_guarded_witness :
  exists p ws,
    get_url_params {["start_date" := ["2024-13-01"]]} = (Ok p, ws) /\
    start_date p = None /\
    default_start (datetime.mkdate 2026 11 4) p
    = Ok (datetime.mkdate 2021 11 5) /\
    end_date p = None /\
    default_end (datetime.mkdate 2026 11 4) p = datetime.mkdate 2026 11 4.
Proof.
  destruct (date_params_guarded {["start_date" := ["2024-13-01"]]}
              (datetime.mkdate 2026 11 4))
    as (p & ws1 & ws2 & Hg & Hs & He & Hds & Hde).
  assert (Hs' : start_date p = None).
  { change (st.getitem {["start_date" := ["2024-13-01"]]} "start_date")
      with (Some "2024-13-01") in Hs.
    inversion Hs as [| | s d _ Hp | ]; [reflexivity| |reflexivity].
    discriminate Hp. }
  assert (He' : end_date p = None).
  { change (st.getitem {["start_date" := ["2024-13-01"]]} "end_date")
      with (@None string) in He.
    inversion He. reflexivity. }
  exists p, (ws1 ++ ws2).
  split; [exact Hg|]. split; [exact Hs'|].
  split; [rewrite (Hds Hs'); reflexivity|].
  split; [exact He'|]. exact (Hde He').
Defined.

(** C8, as stated, fails on the default of the start date: for a start date
    that does not parse, on 4 November 2026, the start widget takes
    5 November 2021, the day 1825 days before, and not 4 November 2021. *)
Lemma default_start_not_five_years_before :
  exists p ws,
    get_url_params {["start_date" := ["2024-13-01"]]} = (Ok p, ws) /\
    start_date p = None /\
    default_start (datetime.mkdate 2026 11 4) p
    = Ok (datetime.mkdate 2021 11 5) /\
    five_years_before (datetime.mkdate 2026 11 4) = datetime.mkdate 2021 11 4 /\
    default_start (datetime.mkdate 2026 11 4) p
    <> Ok (five_years_before (datetime.mkdate 2026 11 4)).
Proof.
  eexists. eexists. split; [reflexivity|].
  split; [reflexivity|]. split; [reflexivity|]. split; [reflexivity|].
  discriminate.
Qed.

(** ** The state of the page *)

Lemma existsb_keys {V} (d : dict V) k :
  existsb (String.eqb k) (keys d) = contains d k.
Proof.
  unfold keys, contains. induction d as [|kv d IH]; [done|].
  cbn [map existsb]. by rewrite IH.
Qed.

Lemma multiselect_catalog l :
  Forall (fun s => contains CPI_SERIES s = true) l ->
  st.multiselect (keys CPI_SERIES) l = Ok l.
Proof.
  intros H. unfold st.multiselect.
  replace (forallb _ l) with true; [done|].
  symmetry. apply forallb_forall. intros s Hs. rewrite existsb_keys.
  rewrite List.Forall_forall in H. by apply H.
Qed.

Lemma radio_view_type v :
  is_in v VIEW_TYPES = true ->
  exists i, list_index VIEW_TYPES v = Ok i /\ radio VIEW_TYPES i = Ok v.
Proof.
  intros H%is_in_In. simpl in H.
  destruct H as [<-|[<-|[<-|[]]]];
    [by exists 0%nat | by exists 1%nat | by exists 2%nat].
Qed.

Lemma date_input_ok v m d :
  st.date_input v m = Ok d -> d = v /\ datetime.leb m d = true.
Proof.
  unfold st.date_input, datetime.ltb, datetime.leb.
  destruct (_ <? _) eqn:Hlt; [done|]. intros [= <-]. split; [done|].
  apply Z.ltb_ge in Hlt. by apply Z.leb_le.
Qed.

(** The script after the decoder: only the two date widgets can refuse. *)
Lemma page_state_eq now qp p ws :
  get_url_params qp = (Ok p, ws) -> params_valid p ->
  page_state now qp
  = match default_start now p with
    | Raise e => (Raise e, ws)
    | Ok ds =>
        match st.date_input ds (datetime.mkdate 1947 1 1) with
        | Raise e => (Raise e, ws)
        | Ok s =>
            match st.date_input (default_end now p) s with
            | Raise e => (Raise e, ws)
            | Ok e =>
                (Ok {| vs_start_date := s;
                       vs_end_date := e;
                       vs_selected_series := series p;
                       vs_view_type := view_type p |}, ws)
            end
        end
    end.
Proof.
  intros Hg (_ & _ & Hne & Hser & Hview).
  unfold page_state. rewrite Hg. unfold bind, lift, ret.
  destruct (default_start now p) as [ds|e]; [|by rewrite app_nil_r].
  destruct (st.date_input ds _) as [s|e]; [|by rewrite !app_nil_r].
  destruct (st.date_input (default_end now p) s) as [e|e];
    [|by rewrite !app_nil_r].
  replace (match series p with [] => DEFAULT_SERIES | x :: l => x :: l end)
    with (series p) by (by destruct (series p)).
  rewrite (multiselect_catalog _ Hser).
  destruct (radio_view_type _ Hview) as (i & -> & ->).
  by rewrite !app_nil_r.
Qed.





(** ** The change calculator *)

Lemma lookup_map {A B} (f : A -> B) (l : list A) (i : nat) :
  map f l !! i = f <$> (l !! i).
Proof. apply (list_lookup_fmap f l i). Qed.

Lemma ffill_from_length prev data :
  length (pandas.ffill_from prev data) = length data.
Proof.
  revert prev. induction data as [|a r IH]; intros prev; [done|].
  simpl. destruct (pandas.isna a); simpl; by rewrite IH.
Qed.

Lemma ffill_from_present prev data (i : nat) a :
  data !! i = Some a -> pandas.isna a = false ->
  pandas.ffill_from prev data !! i = Some a.
Proof.
  revert prev i. induction data as [|x r IH]; intros prev i; [done|].
  destruct i as [|i]; simpl.
  - intros [= ->] Ha. by rewrite Ha.
  - intros Hi Ha. destruct (pandas.isna x); simpl; by apply IH.
Qed.

Lemma shift_length periods data :
  length (pandas.shift periods data) = length data.
Proof.
  unfold pandas.shift.
  rewrite length_take, length_app, length_replicate. lia.
Qed.

Lemma shift_lookup_lt periods data (i : nat) :
  (i < periods)%nat -> (i < length data)%nat ->
  pandas.shift periods data !! i = Some pandas.nan.
Proof.
  intros Hp Hl. unfold pandas.shift.
  rewrite lookup_take_lt by done.
  rewrite lookup_app_l by (rewrite length_replicate; lia).
  by apply lookup_replicate_2.
Qed.

Lemma shift_lookup_ge periods data (i : nat) :
  (i + periods < length data)%nat ->
  pandas.shift periods data !! (i + periods)%nat = data !! i.
Proof.
  intros Hl. unfold pandas.shift.
  rewrite lookup_take_lt by done.
  rewrite lookup_app_r by (rewrite length_replicate; lia).
  rewrite length_replicate. f_equal. lia.
Qed.

Lemma truediv_nan a : pandas.truediv a pandas.nan = pandas.nan.
Proof. by destruct a. Qed.

Lemma filled_length fill values : length (pandas.filled fill values) = length values.
Proof. destruct fill; [apply ffill_from_length|done]. Qed.

Lemma filled_present fill values (i : nat) a :
  values !! i = Some a ->
  (fill = pandas.pad -> pandas.isna a = false) ->
  pandas.filled fill values !! i = Some a.
Proof.
  intros Hi Ha. destruct fill; [|done].
  apply ffill_from_present; auto.
Qed.

Lemma yoy_lookup fill df (i : nat) :
  calculate_yoy_change fill df !! i
  = (a ← pandas.filled fill (pandas.value df) !! i;
     b ← pandas.shift 12 (pandas.filled fill (pandas.value df)) !! i;
     Some (pandas.mul (pandas.sub (pandas.truediv a b) (pandas.of_int 1))
             (pandas.of_int 100))).
Proof.
  unfold calculate_yoy_change, pandas.mul_scalar, pandas.pct_change.
  rewrite lookup_map, lookup_zip_with.
  destruct (pandas.filled fill (pandas.value df) !! i) as [a|]; [|done]. simpl.
  by destruct (pandas.shift 12 _ !! i).
Qed.

(** C4, as amended: the year-over-year series has the length of the value
    column; at a position with fewer than 12 values before it the change is
    missing; at every later position it is
    [(value[i] / value[i-12] - 1) * 100] in binary64 arithmetic, when pandas
    does not pad or when both values are present.  Where pandas pads missing
    values first, the change is given by the same formula on the padded
    values. *)
Theorem yoy_change_formula (fill : pandas.fill_method)
    (df : pandas.DataFrame) :
  length (calculate_yoy_change fill df) = length (pandas.value df) /\
  (forall i : nat,
     (i < 12)%nat -> (i < length (pandas.value df))%nat ->
     calculate_yoy_change fill df !! i = Some pandas.nan) /\
  (forall (i : nat) a b,
     pandas.value df !! (i + 12)%nat = Some a ->
     pandas.value df !! i = Some b ->
     (fill = pandas.pad -> pandas.isna a = false /\ pandas.isna b = false) ->
     calculate_yoy_change fill df !! (i + 12)%nat
     = Some (pandas.mul
               (pandas.sub (pandas.truediv a b) (pandas.of_int 1))
               (pandas.of_int 100))) /\
  (forall (i : nat) a b,
     pandas.ffill (pandas.value df) !! (i + 12)%nat = Some a ->
     pandas.ffill (pandas.value df) !! i = Some b ->
     calculate_yoy_change pandas.pad df !! (i + 12)%nat
     = Some (pandas.mul
               (pandas.sub (pandas.truediv a b) (pandas.of_int 1))
               (pandas.of_int 100))).
Proof.
  split; [|split; [|split]].
  - unfold calculate_yoy_change, pandas.mul_scalar, pandas.pct_change.
    rewrite length_map, length_zip_with, shift_length, filled_length. lia.
  - intros i H12 Hlen. rewrite yoy_lookup.
    rewrite shift_lookup_lt by (rewrite ?filled_length; lia).
    destruct (lookup_lt_is_Some_2 (pandas.filled fill (pandas.value df)) i)
      as [a ->]; [by rewrite filled_length|].
    simpl. by rewrite truediv_nan.
  - intros i a b Ha Hb Hpresent. rewrite yoy_lookup.
    rewrite shift_lookup_ge
      by (rewrite filled_length; by apply lookup_lt_Some in Ha).
    rewrite (filled_present fill _ _ a Ha) by (intros; by apply Hpresent).
    rewrite (filled_present fill _ _ b Hb) by (intros; by apply Hpresent).
    done.
  - intros i a b Ha Hb. rewrite yoy_lookup.
    rewrite shift_lookup_ge
      by (rewrite filled_length; apply lookup_lt_Some in Ha;
          unfold pandas.ffill in Ha; by rewrite ffill_from_length in Ha).
    cbn [pandas.filled]. by rewrite Ha, Hb.
Qed.

Lemma yoy_change_formula_witness :
  calculate_yoy_change pandas.pad hundred_up !! 3%nat = Some pandas.nan /\
  calculate_yoy_change pandas.pad hundred_up !! 12%nat
  = Some (pandas.mul
            (pandas.sub
               (pandas.truediv (pandas.of_int 112) (pandas.of_int 100))
               (pandas.of_int 1))
            (pandas.of_int 100)).
Proof.
  destruct (yoy_change_formula pandas.pad hundred_up) as (_ & Hlt & Hge & _).
  split.
  - apply Hlt; simpl; lia.
  - apply (Hge 0%nat (pandas.of_int 112) (pandas.of_int 100));
      [reflexivity|reflexivity|]. intros _. split; reflexivity.
Defined.

(** C4, as stated, fails where pandas pads missing values, which is the
    default of [pct_change] before pandas 3.0.  The value of the thirteenth
    month is missing, so the formula of the claim gives a missing change at
    position 12; the code gives the change from month 0 to month 11, a
    number. *)
Lemma yoy_change_padded_not_formula :
  pandas.value missing_month !! 12%nat = Some pandas.nan /\
  pandas.value missing_month !! 0%nat = Some (pandas.of_int 100) /\
  pandas.mul
    (pandas.sub (pandas.truediv pandas.nan (pandas.of_int 100))
       (pandas.of_int 1))
    (pandas.of_int 100) = pandas.nan /\
  calculate_yoy_change pandas.pad missing_month !! 12%nat
  = Some (pandas.mul
            (pandas.sub
               (pandas.truediv (pandas.of_int 111) (pandas.of_int 100))
               (pandas.of_int 1))
            (pandas.of_int 100)) /\
  calculate_yoy_change pandas.pad missing_month !! 12%nat
  <> Some (pandas.mul
             (pandas.sub (pandas.truediv pandas.nan (pandas.of_int 100))
                (pandas.of_int 1))
             (pandas.of_int 100)).
Proof.
  split; [reflexivity|]. split; [reflexivity|]. split; [reflexivity|].
  split; [reflexivity|]. by vm_compute.
Qed.

(** Without padding the same frame has a missing change at position 12. *)
Example yoy_change_missing_month :
  calculate_yoy_change pandas.no_fill missing_month !! 12%nat
  = Some pandas.nan.
Proof. reflexivity. Qed.

(** The example of the specification: in binary64 the change at position 12
    is [12 + 6 * 2^-49], a little above 12. *)
Example yoy_hundred_up_12 :
  calculate_yoy_change pandas.no_fill hundred_up !! 12%nat
  = Some (S754_finite false 6755399441055750 (-49)).
Proof. reflexivity. Qed.

(** ** The chart builder *)

Lemma series_colors_keys d : series_colors d = colors_of_keys (keys d).
Proof. reflexivity. Qed.

Lemma palette_lookup (i : nat) :
  COLOR_PALETTE !! (i mod length COLOR_PALETTE)%nat = Some (palette_at i).
Proof.
  unfold palette_at. change (length COLOR_PALETTE) with 9%nat.
  destruct (lookup_lt_is_Some_2 COLOR_PALETTE (i mod 9)%nat) as [c ->];
    [|done].
  change (length COLOR_PALETTE) with 9%nat. apply Nat.mod_upper_bound. lia.
Qed.

Lemma colors_of_keys_snoc ks k :
  colors_of_keys (ks ++ [k])
  = <[k := palette_at (length ks)]> (colors_of_keys ks).
Proof.
  unfold colors_of_keys. rewrite imap_app, fold_left_app. cbn [imap fold_left].
  unfold color_step at 1. rewrite Nat.add_0_r. by rewrite palette_lookup.
Qed.

Lemma colors_of_keys_present ks name :
  name ∈ ks -> is_Some (colors_of_keys ks !! name).
Proof.
  induction ks as [|k ks IH] using rev_ind; [by intros ?%elem_of_nil|].
  rewrite colors_of_keys_snoc. intros Hin.
  destruct (decide (k = name)) as [->|Hne].
  - rewrite lookup_insert_eq. by eexists.
  - rewrite lookup_insert_ne by done. apply IH.
    apply elem_of_app in Hin as [Hin|Hin]; [done|].
    apply list_elem_of_singleton in Hin. congruence.
Qed.

Lemma colors_of_keys_lookup ks (i : nat) name :
  NoDup ks -> ks !! i = Some name ->
  colors_of_keys ks !! name = Some (palette_at i).
Proof.
  revert i. induction ks as [|k ks IH] using rev_ind; intros i Hnd Hi;
    [done|].
  rewrite colors_of_keys_snoc.
  apply NoDup_app in Hnd as (Hnd & Hk & _).
  destruct (decide (i < length ks)%nat) as [Hlt|Hge].
  - rewrite lookup_app_l in Hi by done.
    assert (k <> name).
    { intros ->. apply (Hk name); [by eapply list_elem_of_lookup_2|].
      apply list_elem_of_singleton. reflexivity. }
    rewrite lookup_insert_ne by done. by apply IH.
  - rewrite lookup_app_r in Hi by lia.
    apply list_lookup_singleton_Some in Hi as [Hi <-].
    rewrite lookup_insert_eq. do 2 f_equal. lia.
Qed.

Lemma for_each_traces scatter colors d fig :
  (forall n, n ∈ keys d -> is_Some (colors !! n)) ->
  exists ts,
    for_each (add_series_trace scatter colors) d fig
    = Ok {| go.data := go.data fig ++ ts; go.layout := go.layout fig |} /\
    Forall2 (trace_of scatter colors) ts d.
Proof.
  revert fig. induction d as [|[n df] d IH]; intros fig Hc.
  - exists []. split; [|constructor]. simpl. rewrite app_nil_r.
    by destruct fig.
  - destruct (Hc n) as [c Hn]; [apply list_elem_of_here|].
    cbn [for_each add_series_trace]. unfold color_of. rewrite Hn.
    destruct (IH (go.add_trace fig (scatter c n df))) as (ts & -> & Hts).
    { intros m Hm. apply Hc. by apply list_elem_of_further. }
    exists (scatter c n df :: ts). split.
    + cbn [go.add_trace go.data go.layout]. by rewrite <- app_assoc.
    + constructor; [|done]. by exists c.
Qed.

(** The figure that [create_plot] returns: the traces of the first loop,
    then those of the second, each list in the order of the input. *)
Lemma create_plot_traces fill d vt :
  exists t1 t2,
    create_plot fill d vt
    = Ok {| go.data := t1 ++ t2; go.layout := plot_layout vt |} /\
    (if is_in vt ["Index Values"; "Both"]
     then Forall2 (trace_of (index_scatter vt) (series_colors d)) t1 d
     else t1 = []) /\
    (if is_in vt ["Year-over-Year Changes"; "Both"]
     then Forall2 (trace_of (yoy_scatter fill vt) (series_colors d)) t2 d
     else t2 = []).
Proof.
  assert (Hc : forall n, n ∈ keys d -> is_Some (series_colors d !! n))
    by (intros n; rewrite series_colors_keys; apply colors_of_keys_present).
  unfold create_plot.
  destruct (is_in vt ["Index Values"; "Both"]).
  - destruct (for_each_traces (index_scatter vt) _ d go.empty_figure Hc)
      as (t1 & -> & H1).
    destruct (is_in vt ["Year-over-Year Changes"; "Both"]).
    + destruct (for_each_traces (yoy_scatter fill vt) _ d
                  {| go.data := go.data go.empty_figure ++ t1;
                     go.layout := go.layout go.empty_figure |} Hc)
        as (t2 & -> & H2).
      exists t1, t2. split; [|done]. unfold plot_layout.
      by destruct (String.eqb vt "Both").
    + exists t1, []. split; [|done]. unfold plot_layout.
      rewrite app_nil_r. by destruct (String.eqb vt "Both").
  - destruct (is_in vt ["Year-over-Year Changes"; "Both"]).
    + destruct (for_each_traces (yoy_scatter fill vt) _ d go.empty_figure Hc)
        as (t2 & -> & H2).
      exists [], t2. split; [|done]. unfold plot_layout.
      by destruct (String.eqb vt "Both").
    + exists [], []. split; [|done]. unfold plot_layout.
      by destruct (String.eqb vt "Both").
Qed.

Lemma keys_lookup {V} (d : dict V) (i : nat) : keys d !! i = fst <$> d !! i.
Proof. apply lookup_map. Qed.

Lemma trace_of_color scatter d ts (i : nat) t :
  NoDup (keys d) ->
  (forall c n df, go.color (go.line (scatter c n df)) = c) ->
  Forall2 (trace_of scatter (series_colors d)) ts d ->
  ts !! i = Some t -> go.color (go.line t) = palette_at i.
Proof.
  intros Hnd Hcol Hts Hi.
  destruct (Forall2_lookup_l _ _ _ _ _ Hts Hi)
    as ([n df] & Hd & c & Hc & ->).
  rewrite Hcol. cbn [fst] in Hc.
  rewrite series_colors_keys in Hc.
  rewrite (colors_of_keys_lookup (keys d) i n Hnd) in Hc.
  - by injection Hc.
  - by rewrite keys_lookup, Hd.
Qed.

(** C5: in a mapping, whose keys are distinct, the name at position [i] of
    the iteration order is assigned [COLOR_PALETTE[i mod 9]]; the assignment
    depends on the keys and their order alone; and in the figure the trace
    at position [i] of each loop carries that color. *)
Theorem series_color_by_position (d : dict pandas.DataFrame) :
  NoDup (keys d) ->
  (forall (i : nat) name,
     keys d !! i = Some name ->
     COLOR_PALETTE !! (i mod 9)%nat = Some (palette_at i) /\
     series_colors d !! name = Some (palette_at i)) /\
  (forall d' : dict pandas.DataFrame,
     keys d' = keys d -> series_colors d' = series_colors d) /\
  (forall fill vt,
     exists t1 t2,
       create_plot fill d vt
       = Ok {| go.data := t1 ++ t2; go.layout := plot_layout vt |} /\
       (forall (i : nat) t,
          t1 !! i = Some t -> go.color (go.line t) = palette_at i) /\
       (forall (i : nat) t,
          t2 !! i = Some t -> go.color (go.line t) = palette_at i)).
Proof.
  intros Hnd. split; [|split].
  - intros i name Hi. split; [apply (palette_lookup i)|].
    rewrite series_colors_keys. by apply colors_of_keys_lookup.
  - intros d' Hk. by rewrite !series_colors_keys, Hk.
  - intros fill vt.
    destruct (create_plot_traces fill d vt) as (t1 & t2 & Hp & H1 & H2).
    exists t1, t2. split; [done|]. split.
    + intros i t Hi. destruct (is_in vt ["Index Values"; "Both"]).
      * by eapply (trace_of_color (index_scatter vt)).
      * by subst t1.
    + intros i t Hi.
      destruct (is_in vt ["Year-over-Year Changes"; "Both"]).
      * by eapply (trace_of_color (yoy_scatter fill vt)).
      * by subst t2.
Qed.

Lemma series_color_by_position_witness :
  NoDup (keys [("A", frame_a); ("B", frame_b)]) /\
  series_colors [("A", frame_a); ("B", frame_b)] !! "A" = Some "#1f77b4" /\
  series_colors [("A", frame_a); ("B", frame_b)] !! "B" = Some "#ff7f0e".
Proof.
  assert (Hnd : NoDup (keys [("A", frame_a); ("B", frame_b)])).
  { apply NoDup_cons. split.
    - intros H. apply list_elem_of_singleton in H. discriminate H.
    - apply NoDup_cons. split; [|apply NoDup_nil_2].
      intros H. by apply elem_of_nil in H. }
  split; [exact Hnd|].
  destruct (series_color_by_position _ Hnd) as (H & _ & _).
  split.
  - apply (H 0%nat "A"). reflexivity.
  - apply (H 1%nat "B"). reflexivity.
Defined.

(** C6, as amended: in view type [Both] the figure has two traces for each
    series, the index values at the position of the series and the changes
    at that position after all index traces, named "<series> (Index)" and
    "<series> (YoY %)", both in the color assigned to the series; the index
    trace is dotted (plotly's dash style ['dot']) and on the primary axis,
    titled "Index Value"; the trace of changes is solid and on the secondary
    axis ['y2'], titled "Year-over-Year Change (%)". *)
Theorem both_view_traces (fill : pandas.fill_method)
    (d : dict pandas.DataFrame) :
  both_traces "dot" fill d.
Proof.
  destruct (create_plot_traces fill d "Both") as (t1 & t2 & Hp & H1 & H2).
  cbn [is_in existsb String.eqb Ascii.eqb Bool.eqb orb] in H1, H2.
  pose proof (Forall2_length _ _ _ H1) as L1.
  pose proof (Forall2_length _ _ _ H2) as L2.
  eexists. split; [exact Hp|]. cbn [go.data go.layout].
  split; [rewrite length_app; lia|].
  split; [by eexists|]. split; [by eexists|].
  intros i n df Hi.
  destruct (Forall2_lookup_r _ _ _ _ _ H1 Hi) as (ti & Hti & c & Hc & ->).
  destruct (Forall2_lookup_r _ _ _ _ _ H2 Hi) as (ty & Hty & c' & Hc' & ->).
  cbn [fst snd] in *. rewrite Hc in Hc'. injection Hc' as <-.
  exists c. eexists. eexists. split; [exact Hc|].
  split; [rewrite lookup_app_l; [exact Hti|by eapply lookup_lt_Some]|].
  split; [rewrite lookup_app_r by lia;
          replace (length d + i - length t1)%nat with i by lia; exact Hty|].
  by repeat split.
Qed.

Lemma both_view_traces_witness :
  both_traces "dot" pandas.pad [("A", frame_a); ("B", frame_b)].
Proof. apply both_view_traces. Defined.

(** C6, as stated, fails: the index trace of view type [Both] has plotly's
    dash style ['dot'], which is the dotted line, not ['dash']. *)
Lemma both_view_index_not_dashed :
  ~ both_traces "dash" pandas.pad [("A", frame_a)].
Proof.
  intros (fig & Hp & _ & _ & _ & H).
  destruct (H 0%nat "A" frame_a eq_refl)
    as (c & ti & ty & _ & Hti & _ & _ & _ & Hdash & _).
  vm_compute in Hp. injection Hp as <-.
  vm_compute in Hti. injection Hti as <-.
  discriminate Hdash.
Qed.

Lemma trace_of_index vt colors ts d :
  Forall2 (trace_of (index_scatter vt) colors) ts d ->
  Forall2 is_index_trace ts d.
Proof.
  intros H. eapply Forall2_impl; [exact H|].
  intros t item (c & _ & ->). by repeat split.
Qed.

Lemma trace_of_yoy fill vt colors ts d :
  Forall2 (trace_of (yoy_scatter fill vt) colors) ts d ->
  Forall2 (is_yoy_trace fill) ts d.
Proof.
  intros H. eapply Forall2_impl; [exact H|].
  intros t item (c & _ & ->). by repeat split.
Qed.

(** C7: for each of the three view types the traces of the figure follow
    the iteration order of the input; with one kind of trace there is one
    trace for each series, in order; in view type [Both] the traces of the
    index values, in order, come before all traces of the changes, in
    order. *)
Theorem trace_order (fill : pandas.fill_method) (d : dict pandas.DataFrame) :
  (exists fig,
     create_plot fill d "Index Values" = Ok fig /\
     Forall2 is_index_trace (go.data fig) d) /\
  (exists fig,
     create_plot fill d "Year-over-Year Changes" = Ok fig /\
     Forall2 (is_yoy_trace fill) (go.data fig) d) /\
  (exists fig t1 t2,
     create_plot fill d "Both" = Ok fig /\
     go.data fig = t1 ++ t2 /\
     Forall2 is_index_trace t1 d /\
     Forall2 (is_yoy_trace fill) t2 d).
Proof.
  split; [|split].
  - destruct (create_plot_traces fill d "Index Values")
      as (t1 & t2 & Hp & H1 & H2).
    cbn [is_in existsb String.eqb Ascii.eqb Bool.eqb orb] in H1, H2. subst t2.
    eexists. split; [exact Hp|]. cbn [go.data]. rewrite app_nil_r.
    by eapply trace_of_index.
  - destruct (create_plot_traces fill d "Year-over-Year Changes")
      as (t1 & t2 & Hp & H1 & H2).
    cbn [is_in existsb String.eqb Ascii.eqb Bool.eqb orb] in H1, H2. subst t1.
    eexists. split; [exact Hp|]. cbn [go.data app].
    by eapply trace_of_yoy.
  - destruct (create_plot_traces fill d "Both") as (t1 & t2 & Hp & H1 & H2).
    cbn [is_in existsb String.eqb Ascii.eqb Bool.eqb orb] in H1, H2.
    eexists. exists t1, t2. split; [exact Hp|]. split; [reflexivity|].
    split; [by eapply trace_of_index|by eapply trace_of_yoy].
Qed.

(** The example of the specification: [A] takes the first color of the
    palette and [B] the second. *)
Example create_plot_colors_a_b :
  (fun r => match r with
            | Ok fig => map (fun t => (go.name t, go.color (go.line t)))
                          (go.data fig)
            | Raise _ => []
            end)
    (create_plot pandas.pad [("A", frame_a); ("B", frame_b)] "Index Values")
  = [("A (Index)", "#1f77b4"); ("B (Index)", "#ff7f0e")].
Proof. reflexivity. Qed.

(** ** The fetch loop *)

Lemma dict_getitem_ok {V} (d : dict V) k :
  contains d k = true -> exists v, dict_getitem d k = Ok v.
Proof.
  unfold contains. induction d as [|[k' v'] d IH]; [done|].
  cbn [existsb dict_getitem fst]. rewrite (String.eqb_sym k k').
  destruct (String.eqb k' k); [by eexists|]. exact IH.
Qed.

Lemma dict_getitem_contains {V} (d : dict V) k v :
  dict_getitem d k = Ok v -> contains d k = true.
Proof.
  unfold contains. induction d as [|[k' v'] d IH]; [done|].
  cbn [existsb dict_getitem fst]. rewrite (String.eqb_sym k k').
  destruct (String.eqb k' k); [done|]. exact IH.
Qed.

Lemma dict_getitem_raise {V} (d : dict V) k e :
  dict_getitem d k = Raise e -> e = KeyError /\ contains d k = false.
Proof.
  unfold contains. induction d as [|[k' v'] d IH].
  - by intros [= <-].
  - cbn [existsb dict_getitem fst]. rewrite (String.eqb_sym k k').
    destruct (String.eqb k' k); [done|]. exact IH.
Qed.

Lemma keys_dict_set {V} (d : dict V) k v :
  keys (dict_set d k v) = if contains d k then keys d else keys d ++ [k].
Proof.
  unfold keys, contains. induction d as [|[k' v'] d IH]; [done|].
  cbn [dict_set existsb map fst]. rewrite (String.eqb_sym k k').
  destruct (String.eqb k' k); [done|]. cbn [map fst orb]. rewrite IH.
  by destruct (existsb _ d).
Qed.

Lemma contains_elem_of {V} (d : dict V) k :
  contains d k = true <-> k ∈ keys d.
Proof.
  rewrite list_elem_of_In. split; [apply contains_keys|].
  unfold keys, contains. intros [[k' v] [<- Hin]]%in_map_iff.
  apply existsb_exists. exists (k', v). split; [done|]. apply String.eqb_refl.
Qed.

Lemma dict_set_fresh {V} (d : dict V) k v :
  k ∉ keys d -> dict_set d k v = d ++ [(k, v)].
Proof.
  induction d as [|[k' v'] d IH]; [done|]. cbn [keys map fst dict_set].
  intros Hk. apply not_elem_of_cons in Hk as [Hne Hk].
  destruct (String.eqb_spec k' k) as [->|_]; [done|].
  by rewrite (IH Hk).
Qed.

Section fetch_facts.

Variable get_series :
  string -> datetime.date -> datetime.date -> result Series.
Variables start_date end_date : datetime.date.

(** What the loop does from any dictionary: it displays one error for each
    fetch that fails, and adds the names whose fetch succeeds. *)
Lemma fetch_loop_keys selected df_dict :
  Forall (fun s => contains CPI_SERIES s = true) selected ->
  exists d',
    fetch_loop get_series start_date end_date selected df_dict
    = (Ok d', omap (fetch_error get_series start_date end_date) selected) /\
    (NoDup (keys df_dict) -> NoDup (keys d')) /\
    (forall k, k ∈ keys d' <->
               k ∈ keys df_dict \/
               (k ∈ selected /\
                is_Some (fetched get_series start_date end_date k))).
Proof.
  intros Hcat. revert df_dict.
  induction Hcat as [|name selected Hname _ IH]; intros df_dict.
  - exists df_dict. split; [done|]. split; [done|].
    intros k. split; [by left|]. intros [?|[[]%elem_of_nil _]]. done.
  - destruct (dict_getitem_ok CPI_SERIES name Hname) as [id Hid].
    cbn [fetch_loop omap list_omap]. unfold fetched, fetch_error, get_cpi_data.
    rewrite Hid.
    destruct (get_series id start_date end_date) as [s|e] eqn:Hget.
    + destruct (IH (dict_set df_dict name (to_frame s)))
        as (d' & -> & Hnd & Hk).
      exists d'. split; [done|]. split.
      * intros H. apply Hnd. rewrite keys_dict_set.
        destruct (contains df_dict name) eqn:Hc; [done|].
        apply NoDup_app. split; [done|]. split; [|apply NoDup_singleton].
        intros x Hx ->%list_elem_of_singleton.
        apply contains_elem_of in Hx. congruence.
      * intros k. rewrite Hk, keys_dict_set. unfold fetched.
        destruct (contains df_dict name) eqn:Hc.
        -- apply contains_elem_of in Hc. split.
           ++ intros [?|[? ?]]; [by left|]. right. split; [by right|done].
           ++ intros [?|[[->|?]%elem_of_cons ?]]; [by left|by left|].
              right. by split.
        -- rewrite elem_of_app, list_elem_of_singleton. split.
           ++ intros [[?| ->]|[? ?]]; [by left| |].
              ** right. split; [by left|]. by rewrite Hid, Hget.
              ** right. split; [by right|done].
           ++ intros [?|[[->|?]%elem_of_cons ?]];
                [by left; left|by left; right|]. right. by split.
    + destruct (IH df_dict) as (d' & -> & Hnd & Hk).
      exists d'. split; [done|]. split; [done|].
      intros k. rewrite Hk. unfold fetched. split.
      * intros [?|[? ?]]; [by left|]. right. split; [by right|done].
      * intros [?|[[->|?]%elem_of_cons Hs]]; [by left| |].
        -- rewrite Hid, Hget in Hs. by destruct Hs.
        -- right. by split.
Qed.

(** The closed form of the loop on distinct catalog names that are not yet
    in the dictionary. *)
Lemma fetch_loop_distinct selected df_dict :
  Forall (fun s => contains CPI_SERIES s = true) selected ->
  NoDup selected ->
  (forall s, s ∈ selected -> s ∉ keys df_dict) ->
  fetch_loop get_series start_date end_date selected df_dict
  = (Ok (df_dict
         ++ omap (fun s => pair s <$> fetched get_series start_date end_date s)
              selected),
     omap (fetch_error get_series start_date end_date) selected).
Proof.
  intros Hcat. revert df_dict.
  induction Hcat as [|name selected Hname _ IH]; intros df_dict Hnd Hfresh.
  - simpl. by rewrite app_nil_r.
  - apply NoDup_cons in Hnd as [Hnotin Hnd].
    destruct (dict_getitem_ok CPI_SERIES name Hname) as [id Hid].
    cbn [fetch_loop omap list_omap]. unfold fetched, fetch_error, get_cpi_data.
    rewrite Hid.
    destruct (get_series id start_date end_date) as [s|e].
    + rewrite dict_set_fresh by (apply Hfresh; left).
      rewrite IH; [|done|].
      * cbn [fmap option_fmap option_map app]. by rewrite <- app_assoc.
      * intros s' Hs'. unfold keys. rewrite map_app. cbn [map fst].
        intros [Hin|Hin%list_elem_of_singleton]%elem_of_app.
        -- by apply (Hfresh s'); [right|].
        -- by subst.
    + rewrite IH; [done|done|].
      intros s' Hs'. apply Hfresh. by right.
Qed.

(** X2: a selected name that is no catalog key stops the loop with a
    [KeyError], whatever the fetches before it gave. *)
Theorem fetch_loop_key_error selected df_dict :
  Exists (fun s => contains CPI_SERIES s = false) selected ->
  fst (fetch_loop get_series start_date end_date selected df_dict)
  = Raise KeyError.
Proof.
  intros Hex. revert df_dict.
  induction Hex as [name selected Hname|name selected _ IH]; intros df_dict;
    cbn [fetch_loop];
    destruct (dict_getitem CPI_SERIES name) as [id|e] eqn:Hid.
  - apply dict_getitem_contains in Hid. congruence.
  - by destruct (dict_getitem_raise _ _ _ Hid) as [-> _].
  - destruct (get_cpi_data _ _ _ _) as [df shown].
    specialize (IH (match df with
                    | Some df => dict_set df_dict name df
                    | None => df_dict
                    end)).
    destruct (fetch_loop _ _ _ _ _) as [r shown']. exact IH.
  - by destruct (dict_getitem_raise _ _ _ Hid) as [-> _].
Qed.

(** X1: for a selection made of catalog names the loop never raises; it
    displays one error for each fetch that fails, in order; the dictionary
    it builds has distinct keys, which are the selected names whose fetch
    succeeded; and for a selection without repetition the dictionary holds
    these names in the order of the selection, each with its frame. *)
Theorem fetch_loop_result selected :
  Forall (fun s => contains CPI_SERIES s = true) selected ->
  exists d',
    fetch_loop get_series start_date end_date selected []
    = (Ok d', omap (fetch_error get_series start_date end_date) selected) /\
    NoDup (keys d') /\
    (forall k, k ∈ keys d' <->
               k ∈ selected /\
               is_Some (fetched get_series start_date end_date k)) /\
    (NoDup selected ->
     d' = omap (fun s => pair s <$> fetched get_series start_date end_date s)
            selected).
Proof.
  intros Hcat.
  destruct (fetch_loop_keys selected [] Hcat) as (d' & Hl & Hnd & Hk).
  exists d'. split; [done|]. split; [apply Hnd; constructor|]. split.
  - intros k. rewrite Hk. split; [|by right].
    by intros [[]%elem_of_nil|?].
  - intros Hsel. rewrite fetch_loop_distinct in Hl; [|done|done|].
    + by injection Hl as <-.
    + intros s _ []%elem_of_nil.
Qed.

End fetch_facts.

Lemma trace_of_at scatter colors ts (d : dict pandas.DataFrame) (i : nat) t :
  Forall2 (trace_of scatter colors) ts d -> ts !! i = Some t ->
  exists name df c,
    d !! i = Some (name, df) /\ colors !! name = Some c /\
    t = scatter c name df.
Proof.
  intros Hts Hi.
  destruct (Forall2_lookup_l _ _ _ _ _ Hts Hi) as ([n df] & Hd & c & Hc & ->).
  by exists n, df, c.
Qed.

(** X3: for a selection made of catalog names the drawing part of the script
    never raises; it hands no figure to the page exactly when no selected
    series could be fetched; otherwise the figure is the one that
    [create_plot] returns for the series that were fetched and the view
    type, with one trace for each fetched series in each kind of trace that
    the view type has, so that the color of a series is given by its
    position among the fetched series, not among the selected ones. *)
Theorem draw_chart_result
    (get_series : string -> datetime.date -> datetime.date -> result Series)
    (fill : pandas.fill_method) (vs : view_state) :
  Forall (fun s => contains CPI_SERIES s = true) (vs_selected_series vs) ->
  exists d' r,
    fst (fetch_loop get_series (vs_start_date vs) (vs_end_date vs)
           (vs_selected_series vs) []) = Ok d' /\
    draw_chart get_series fill vs
    = (Ok r, omap (fetch_error get_series (vs_start_date vs) (vs_end_date vs))
               (vs_selected_series vs)) /\
    (r = None <->
     forall s, s ∈ vs_selected_series vs ->
               fetched get_series (vs_start_date vs) (vs_end_date vs) s = None) /\
    (forall fig,
       r = Some fig ->
       d' <> [] /\
       create_plot fill d' (vs_view_type vs) = Ok fig /\
       exists t1 t2,
         go.data fig = t1 ++ t2 /\
         length t1
         = (if is_in (vs_view_type vs) ["Index Values"; "Both"]
            then length d' else 0%nat) /\
         length t2
         = (if is_in (vs_view_type vs) ["Year-over-Year Changes"; "Both"]
            then length d' else 0%nat) /\
         (forall (i : nat) t,
            t1 !! i = Some t ->
            exists name df,
              d' !! i = Some (name, df) /\
              go.name t = name +:+ " (Index)" /\
              go.color (go.line t) = palette_at i) /\
         (forall (i : nat) t,
            t2 !! i = Some t ->
            exists name df,
              d' !! i = Some (name, df) /\
              go.name t = name +:+ " (YoY %)" /\
              go.color (go.line t) = palette_at i)).
Proof.
  intros Hcat.
  destruct (fetch_loop_keys get_series (vs_start_date vs) (vs_end_date vs)
              _ [] Hcat) as (d' & Hl & Hnd & Hk).
  specialize (Hnd (NoDup_nil_2 (A:=string))).
  assert (Hnone : d' = [] <->
            forall s, s ∈ vs_selected_series vs ->
              fetched get_series (vs_start_date vs) (vs_end_date vs) s = None).
  { split.
    - intros -> s Hs.
      destruct (fetched _ _ _ s) eqn:Hf; [|done].
      assert (s ∈ keys (@nil (string * pandas.DataFrame))) as []%elem_of_nil.
      apply Hk. right. split; [done|]. by rewrite Hf.
    - intros Hall. destruct d' as [|[k v] d']; [done|]. exfalso.
      destruct (proj1 (Hk k)) as [[]%elem_of_nil|[Hin Hs]]; [by left|].
      rewrite (Hall k Hin) in Hs. by destruct Hs. }
  unfold draw_chart.
  destruct (vs_selected_series vs) as [|s0 sel] eqn:Hsel.
  - simpl in Hl. injection Hl as <-. exists [], None.
    split; [done|]. split; [done|]. split; [|done].
    split; [by intros _ s []%elem_of_nil|done].
  - rewrite Hl. cbn [fst].
    destruct d' as [|item d'].
    + exists [], None. split; [done|]. split; [done|].
      split; [|done]. split; [intros _; by apply Hnone|done].
    + destruct (create_plot_traces fill (item :: d') (vs_view_type vs))
        as (t1 & t2 & Hplot & H1 & H2).
      rewrite Hplot.
      eexists. eexists. split; [reflexivity|]. split; [reflexivity|].
      split.
      { split; [done|]. intros Hall. by apply Hnone in Hall. }
      intros fig [= <-]. split; [done|]. split; [exact Hplot|].
      exists t1, t2. split; [done|].
      split.
      { destruct (is_in (vs_view_type vs) ["Index Values"; "Both"]);
          [by apply Forall2_length in H1|by subst t1]. }
      split.
      { destruct (is_in (vs_view_type vs) ["Year-over-Year Changes"; "Both"]);
          [by apply Forall2_length in H2|by subst t2]. }
      split.
      * intros i t Hi.
        destruct (is_in (vs_view_type vs) ["Index Values"; "Both"]);
          [|by subst t1].
        destruct (trace_of_at _ _ _ _ _ _ H1 Hi) as (n & df & c & Hd & Hc & ->).
        exists n, df. split; [done|]. split; [done|].
        cbn [index_scatter go.line go.color].
        rewrite series_colors_keys in Hc.
        rewrite (colors_of_keys_lookup _ i n Hnd) in Hc; [by injection Hc|].
        by rewrite keys_lookup, Hd.
      * intros i t Hi.
        destruct (is_in (vs_view_type vs) ["Year-over-Year Changes"; "Both"]);
          [|by subst t2].
        destruct (trace_of_at _ _ _ _ _ _ H2 Hi) as (n & df & c & Hd & Hc & ->).
        exists n, df. split; [done|]. split; [done|].
        cbn [yoy_scatter go.line go.color].
        rewrite series_colors_keys in Hc.
        rewrite (colors_of_keys_lookup _ i n Hnd) in Hc; [by injection Hc|].
        by rewrite keys_lookup, Hd.
Qed.

(** ** More on the chart builder *)

(** X4: with one kind of trace the figure has one trace for each series and
    one value axis: in view type "Index Values" the axis is titled
    "Index Value", in "Year-over-Year Changes" it is titled
    "Year-over-Year Change (%)"; there is no second axis, and every trace is
    a solid line of width 2 on the axis ['y']. *)
Theorem single_axis_views (fill : pandas.fill_method)
    (d : dict pandas.DataFrame) :
  (exists fig,
     create_plot fill d "Index Values" = Ok fig /\
     length (go.data fig) = length d /\
     go.layout_yaxis2 (go.layout fig) = None /\
     (exists ax, go.layout_yaxis (go.layout fig) = Some ax /\
                 go.axis_title ax = Some "Index Value") /\
     Forall (fun t => go.dash (go.line t) = "solid" /\
                      go.width (go.line t) = 2 /\
                      go.trace_axis t = "y") (go.data fig)) /\
  (exists fig,
     create_plot fill d "Year-over-Year Changes" = Ok fig /\
     length (go.data fig) = length d /\
     go.layout_yaxis2 (go.layout fig) = None /\
     (exists ax, go.layout_yaxis (go.layout fig) = Some ax /\
                 go.axis_title ax = Some "Year-over-Year Change (%)") /\
     Forall (fun t => go.dash (go.line t) = "solid" /\
                      go.width (go.line t) = 2 /\
                      go.trace_axis t = "y") (go.data fig)).
Proof.
  split.
  - destruct (create_plot_traces fill d "Index Values")
      as (t1 & t2 & Hp & H1 & H2).
    cbn [is_in existsb String.eqb Ascii.eqb Bool.eqb orb] in H1, H2. subst t2.
    eexists. split; [exact Hp|]. cbn [go.data go.layout]. rewrite app_nil_r.
    split; [by eapply Forall2_length|]. split; [done|].
    split; [by eexists|].
    apply Forall_forall. intros t [i Hi]%list_elem_of_lookup_1.
    by destruct (trace_of_at _ _ _ _ _ _ H1 Hi) as (n & df & c & _ & _ & ->).
  - destruct (create_plot_traces fill d "Year-over-Year Changes")
      as (t1 & t2 & Hp & H1 & H2).
    cbn [is_in existsb String.eqb Ascii.eqb Bool.eqb orb] in H1, H2. subst t1.
    eexists. split; [exact Hp|]. cbn [go.data go.layout app].
    split; [by eapply Forall2_length|]. split; [done|].
    split; [by eexists|].
    apply Forall_forall. intros t [i Hi]%list_elem_of_lookup_1.
    by destruct (trace_of_at _ _ _ _ _ _ H2 Hi) as (n & df & c & _ & _ & ->).
Qed.

Lemma not_view_type vt :
  is_in vt VIEW_TYPES = false ->
  is_in vt ["Index Values"; "Both"] = false /\
  is_in vt ["Year-over-Year Changes"; "Both"] = false /\
  String.eqb vt "Both" = false /\ String.eqb vt "Index Values" = false.
Proof.
  unfold is_in, VIEW_TYPES. cbn [existsb].
  destruct (String.eqb vt "Index Values"),
    (String.eqb vt "Year-over-Year Changes"), (String.eqb vt "Both"); done.
Qed.

(** X5: [create_plot] returns a figure for every mapping and every string
    given as view type, never a [KeyError] from the color lookup; the figure
    has a trace for each series in each loop that the view type selects, and
    the title "CPI Data", the x axis title "Date" and the height 600.  For a
    string that is none of the three view types the figure has no trace and
    its one value axis is titled "Year-over-Year Change (%)". *)
Theorem create_plot_any_view (fill : pandas.fill_method)
    (d : dict pandas.DataFrame) (vt : string) :
  exists fig,
    create_plot fill d vt = Ok fig /\
    length (go.data fig)
    = ((if is_in vt ["Index Values"; "Both"] then length d else 0)
       + (if is_in vt ["Year-over-Year Changes"; "Both"]
          then length d else 0))%nat /\
    go.title (go.layout fig) = Some "CPI Data" /\
    go.xaxis_title (go.layout fig) = Some "Date" /\
    go.hovermode (go.layout fig) = Some "x unified" /\
    go.height (go.layout fig) = Some 600 /\
    (is_in vt VIEW_TYPES = false ->
     go.data fig = [] /\
     go.layout_yaxis2 (go.layout fig) = None /\
     exists ax, go.layout_yaxis (go.layout fig) = Some ax /\
                go.axis_title ax = Some "Year-over-Year Change (%)").
Proof.
  destruct (create_plot_traces fill d vt) as (t1 & t2 & Hp & H1 & H2).
  eexists. split; [exact Hp|]. cbn [go.data go.layout].
  split.
  { rewrite length_app.
    destruct (is_in vt ["Index Values"; "Both"]),
      (is_in vt ["Year-over-Year Changes"; "Both"]); subst;
      rewrite ?(Forall2_length _ _ _ H1), ?(Forall2_length _ _ _ H2); done. }
  split; [done|]. split; [done|]. split; [done|]. split; [done|].
  intros (Ha & Hb & Hc & Hd)%not_view_type.
  rewrite Ha in H1. rewrite Hb in H2. subst.
  unfold plot_layout. rewrite Hc, Hd. split; [done|]. split; [done|].
  by eexists.
Qed.

Lemma create_plot_any_view_witness :
  is_in "both" VIEW_TYPES = false /\
  exists fig,
    create_plot pandas.pad [("A", frame_a)] "both" = Ok fig /\
    go.data fig = [].
Proof.
  split; [reflexivity|].
  destruct (create_plot_any_view pandas.pad [("A", frame_a)] "both")
    as (fig & Hp & _ & _ & _ & _ & _ & H).
  exists fig. split; [exact Hp|]. apply H. reflexivity.
Defined.

Lemma palette_NoDup : NoDup COLOR_PALETTE.
Proof. compute_done. Qed.

Lemma palette_at_inj (i j : nat) :
  palette_at i = palette_at j <-> (i mod 9 = j mod 9)%nat.
Proof.
  split.
  - intros H. pose proof (palette_lookup i) as Hi.
    pose proof (palette_lookup j) as Hj. rewrite H in Hi.
    change (length COLOR_PALETTE) with 9%nat in Hi, Hj.
    exact (NoDup_lookup _ _ _ _ palette_NoDup Hi Hj).
  - intros H. unfold palette_at. by rewrite H.
Qed.

(** X6: in a mapping with distinct keys two series are assigned the same
    color exactly when their positions are equal modulo 9: up to nine series
    have nine different colors, and the tenth takes the color of the
    first. *)
Theorem same_color_iff_same_position_mod_9 (d : dict pandas.DataFrame)
    (i j : nat) (a b : string) :
  NoDup (keys d) ->
  keys d !! i = Some a -> keys d !! j = Some b ->
  (series_colors d !! a = series_colors d !! b <-> (i mod 9 = j mod 9)%nat).
Proof.
  intros Hnd Hi Hj. rewrite series_colors_keys.
  rewrite (colors_of_keys_lookup _ i a Hnd Hi).
  rewrite (colors_of_keys_lookup _ j b Hnd Hj).
  rewrite <- palette_at_inj. split; [by intros [= ->]|by intros ->].
Qed.

(** ** More on the URL state codec *)

Lemma re_Y_inv {R} s k (r : R) :
  datetime.re_Y s k = Some r ->
  exists y s', k y s' = Some r /\
               String.length s = (4 + String.length s')%nat.
Proof.
  unfold datetime.re_Y.
  destruct s as [|a [|b [|c [|d s']]]]; try done.
  repeat case_match; try done. intros Hk. by eexists _, _.
Qed.

Lemma two_inv {R} l1 h1 l2 h2 s k (r : R) :
  datetime.two l1 h1 l2 h2 s k = Some r ->
  exists y s', k y s' = Some r /\
               String.length s = (2 + String.length s')%nat.
Proof.
  unfold datetime.two. destruct s as [|a [|b s']]; try done.
  repeat case_match; try done. intros Hk. by eexists _, _.
Qed.

Lemma one_inv {R} l h s k (r : R) :
  datetime.one l h s k = Some r ->
  exists y s', k y s' = Some r /\
               String.length s = (1 + String.length s')%nat.
Proof.
  unfold datetime.one. destruct s as [|a s']; try done.
  repeat case_match; try done. intros Hk. by eexists _, _.
Qed.

Lemma lit_inv {R} c s k (r : R) :
  datetime.lit c s k = Some r ->
  exists s', k tt s' = Some r /\
             String.length s = (1 + String.length s')%nat.
Proof.
  unfold datetime.lit. destruct s as [|a s']; try done.
  repeat case_match; try done. intros Hk. by eexists.
Qed.

Lemma alt_inv {A R} (ps : list (datetime.matcher A R)) s k r :
  datetime.alt ps s k = Some r -> exists p, In p ps /\ p s k = Some r.
Proof.
  unfold datetime.alt. induction ps as [|p ps IH]; [done|]. cbn [foldr].
  destruct (p s k) as [r'|] eqn:Hp.
  - intros [= <-]. exists p. split; [by left|done].
  - intros (q & Hq & Hr)%IH. exists q. split; [by right|done].
Qed.

(** A month or a day takes one or two characters. *)
Lemma re_m_inv {R} s k (r : R) :
  datetime.re_m s k = Some r ->
  exists y s', k y s' = Some r /\
    (1 + String.length s' <= String.length s <= 2 + String.length s')%nat.
Proof.
  intros (p & Hp & Hr)%alt_inv. simpl in Hp.
  destruct Hp as [<-|[<-|[<-|[]]]].
  - apply two_inv in Hr as (y & s' & ? & ?). exists y, s'. split; [done|lia].
  - apply two_inv in Hr as (y & s' & ? & ?). exists y, s'. split; [done|lia].
  - apply one_inv in Hr as (y & s' & ? & ?). exists y, s'. split; [done|lia].
Qed.

Lemma re_d_inv {R} s k (r : R) :
  datetime.re_d s k = Some r ->
  exists y s', k y s' = Some r /\
    (1 + String.length s' <= String.length s <= 2 + String.length s')%nat.
Proof.
  intros (p & Hp & Hr)%alt_inv. simpl in Hp.
  destruct Hp as [<-|[<-|[<-|[<-|[<-|[]]]]]].
  - apply two_inv in Hr as (y & s' & ? & ?). exists y, s'. split; [done|lia].
  - apply two_inv in Hr as (y & s' & ? & ?). exists y, s'. split; [done|lia].
  - apply two_inv in Hr as (y & s' & ? & ?). exists y, s'. split; [done|lia].
  - apply one_inv in Hr as (y & s' & ? & ?). exists y, s'. split; [done|lia].
  - apply lit_inv in Hr as (s1 & Hr & ?).
    apply one_inv in Hr as (y & s' & ? & ?). exists y, s'. split; [done|lia].
Qed.

Lemma strptime_length s d :
  datetime.strptime_ymd s = Ok d -> 8 <= str.len s <= 10.
Proof.
  unfold datetime.strptime_ymd, datetime.re_match_ymd.
  destruct (datetime.re_Y s _) as [[[[y m] dd] rest]|] eqn:Hm; [|done].
  destruct (negb (String.eqb rest "")) eqn:Hrest; [done|]. intros _.
  apply negb_false_iff, String.eqb_eq in Hrest. subst rest.
  apply re_Y_inv in Hm as (y' & s1 & Hm & L1).
  apply lit_inv in Hm as (s2 & Hm & L2).
  apply re_m_inv in Hm as (m' & s3 & Hm & L3).
  apply lit_inv in Hm as (s4 & Hm & L4).
  apply re_d_inv in Hm as (d' & s5 & Hm & L5).
  injection Hm as _ _ _ ->. simpl in L5. unfold str.len. lia.
Qed.

(** X7: a string that [strptime] accepts for ['%Y-%m-%d'] has 8 to 10
    characters, so the guard [len(s) > 5] of [get_url_params] never discards
    a date: the date that comes out for a date parameter is the one
    [strptime] gives for its value, and none when [strptime] raises or the
    parameter is missing. *)
Theorem date_guard_keeps_dates (qp : st.query_params) :
  (forall s d, datetime.strptime_ymd s = Ok d -> 8 <= str.len s <= 10) /\
  exists p ws,
    get_url_params qp = (Ok p, ws) /\
    start_date p
    = match st.getitem qp "start_date" with
      | Some s => match datetime.strptime_ymd s with
                  | Ok d => Some d
                  | Raise _ => None
                  end
      | None => None
      end /\
    end_date p
    = match st.getitem qp "end_date" with
      | Some s => match datetime.strptime_ymd s with
                  | Ok d => Some d
                  | Raise _ => None
                  end
      | None => None
      end.
Proof.
  split; [apply strptime_length|].
  eexists. eexists.
  split; [rewrite get_url_params_eq; apply get_url_params_try_eq|].
  cbn [start_date end_date]. unfold date_of.
  split.
  - destruct (st.getitem qp "start_date") as [s|]; [|done].
    destruct (datetime.strptime_ymd s) as [d|e] eqn:Hp;
      [|by destruct (5 <? str.len s)].
    apply strptime_length in Hp.
    by replace (5 <? str.len s) with true by (symmetry; apply Z.ltb_lt; lia).
  - destruct (st.getitem qp "end_date") as [s|]; [|done].
    destruct (datetime.strptime_ymd s) as [d|e] eqn:Hp;
      [|by destruct (5 <? str.len s)].
    apply strptime_length in Hp.
    by replace (5 <? str.len s) with true by (symmetry; apply Z.ltb_lt; lia).
Qed.

Lemma date_guard_keeps_dates_witness :
  datetime.strptime_ymd "2024-1-5" = Ok (datetime.mkdate 2024 1 5) /\
  8 <= str.len "2024-1-5" <= 10.
Proof.
  split; [reflexivity|].
  apply (proj1 (date_guard_keeps_dates ∅) "2024-1-5"
           (datetime.mkdate 2024 1 5)).
  reflexivity.
Defined.

Lemma all_chars_app P a b :
  all_chars P (a +:+ b) = all_chars P a && all_chars P b.
Proof. induction a as [|c a IH]; simpl; [done|]. by rewrite IH, andb_assoc. Qed.

Lemma quote_plus_query_chars s :
  all_chars query_char (urllib.quote_plus s) = true.
Proof.
  induction s as [|c s IH]; [done|].
  destruct c as [[] [] [] [] [] [] [] []]; exact IH.
Qed.

Lemma quote_plus_has_qmark s : str.has "?" (urllib.quote_plus s) = false.
Proof.
  induction s as [|c s IH]; [done|].
  destruct c as [[] [] [] [] [] [] [] []]; exact IH.
Qed.

Lemma join_items_chars (items : list (string * string)) :
  all_chars query_char (str.join "&" (map quote_item items)) = true /\
  str.has "?" (str.join "&" (map quote_item items)) = false.
Proof.
  assert (Hitem : forall kv,
            all_chars query_char (quote_item kv) = true /\
            str.has "?" (quote_item kv) = false).
  { intros kv. unfold quote_item. rewrite all_chars_app, has_app. simpl.
    by rewrite !quote_plus_query_chars, !quote_plus_has_qmark. }
  induction items as [|kv items IH]; [done|].
  destruct items as [|kv' items]; [apply Hitem|].
  change (str.join "&" (map quote_item (kv :: kv' :: items)))
    with (quote_item kv
          +:+ String "&" (str.join "&" (map quote_item (kv' :: items)))).
  set (rest := str.join "&" (map quote_item (kv' :: items))) in *.
  rewrite all_chars_app, has_app. destruct (Hitem kv) as [-> ->].
  simpl. by destruct IH as [-> ->].
Qed.

Lemma split_hd_prefix sep s x xs :
  str.split sep s = x :: xs ->
  s = x \/ exists rest, s = x +:+ String sep rest.
Proof.
  revert x xs. induction s as [|c s IH]; simpl; intros x xs.
  - intros [= <- <-]. by left.
  - destruct (Ascii.eqb_spec c sep) as [->|Hc].
    + intros [= <- <-]. right. by exists s.
    + destruct (str.split sep s) as [|y ys] eqn:Hs.
      * by destruct (split_nonempty sep s).
      * intros [= <- <-]. destruct (IH y ys eq_refl) as [->|[rest ->]].
        -- by left.
        -- right. by exists rest.
Qed.

(** X8: the share URL is the current URL up to its first [?], then [?], then
    the encoded parameters.  The base holds no [?] (a query that the current
    URL has is dropped) and is empty when the page has no [_url] parameter;
    the encoded parameters hold no [?] either and are made of letters,
    digits and [_ . - ~ + % & =] only, whatever the names and the view type
    are. *)
Theorem share_url_shape (qp : st.query_params) (a b : datetime.date)
    (sel : list string) (v : string) :
  exists base,
    generate_share_url qp a b sel v
    = base +:+ "?" +:+ urllib.urlencode (share_params a b sel v) /\
    str.has "?" base = false /\
    (st.get qp "_url" id "" = base \/
     exists rest, st.get qp "_url" id "" = base +:+ String "?" rest) /\
    (qp !! "_url" = None -> base = "") /\
    str.has "?" (urllib.urlencode (share_params a b sel v)) = false /\
    all_chars query_char (urllib.urlencode (share_params a b sel v)) = true.
Proof.
  assert (Hq : str.has "?" (urllib.urlencode (share_params a b sel v)) = false
               /\ all_chars query_char
                    (urllib.urlencode (share_params a b sel v)) = true).
  { unfold urllib.urlencode. rewrite urlencode_items_pairs.
    by destruct (join_items_chars (query_pairs (share_params a b sel v))). }
  destruct Hq as [Hq1 Hq2].
  unfold generate_share_url. set (u := st.get qp "_url" id "").
  destruct (str.truthy u) eqn:Hu.
  - destruct (str.split "?" u) as [|x xs] eqn:Hs;
      [by destruct (split_nonempty "?" u)|].
    exists x. split; [done|]. split; [by eapply split_hd_no_sep|].
    split; [by eapply split_hd_prefix|]. split; [|done].
    intros Hnone. subst u. unfold st.get, st.getitem in Hu.
    by rewrite Hnone in Hu.
  - exists "". split; [done|]. split; [done|]. split; [|done].
    left. unfold str.truthy in Hu. apply negb_false_iff in Hu.
    by apply String.eqb_eq in Hu.
Qed.

Lemma share_url_shape_witness :
  generate_share_url ∅ (datetime.mkdate 2020 1 5) (datetime.mkdate 2024 12 31)
    ["All Items"] "Both"
  = "?start_date=2020-01-05&end_date=2024-12-31&series=All+Items&view_type=Both".
Proof.
  destruct (share_url_shape ∅ (datetime.mkdate 2020 1 5)
              (datetime.mkdate 2024 12 31) ["All Items"] "Both")
    as (base & -> & _ & _ & Hb & _).
  rewrite (Hb eq_refl). reflexivity.
Defined.

Lemma valid_share_decoded qp a b sel v :
  datetime.valid a = true -> datetime.valid b = true ->
  1000 <= datetime.year a -> 1000 <= datetime.year b ->
  str.has "#" (base_url qp) = false ->
  Forall (fun s => contains CPI_SERIES s = true) sel ->
  is_in v VIEW_TYPES = true ->
  decode_share_url qp a b sel v
  = Some (Ok {| start_date := Some a; end_date := Some b;
                series := series_of sel; view_type := v |}, []).
Proof.
  intros Ha Hb Hya Hyb Hbase Hsel Hv.
  rewrite decode_share_url_eq
    by auto using selection_isascii, view_type_isascii.
  destruct (date_of_strftime a Ha Hya) as [-> ->].
  destruct (date_of_strftime b Hb Hyb) as [-> ->].
  unfold view_of. by rewrite Hv.
Qed.

(** [strftime] writes different dates differently. *)
Lemma digit_char_inj a b :
  0 <= a < 10 -> 0 <= b < 10 ->
  datetime.digit_char a = datetime.digit_char b -> a = b.
Proof.
  intros Ha Hb H. apply (f_equal datetime.digit_val) in H.
  rewrite !digit_val_digit_char in H by done. by injection H.
Qed.

Lemma digit_char_not_dash a :
  0 <= a < 10 -> datetime.digit_char a <> "-"%char.
Proof.
  intros Ha H. apply (f_equal datetime.digit_val) in H.
  rewrite digit_val_digit_char in H by done. discriminate H.
Qed.

Lemma fmt_year_inj y y' k k' :
  1 <= y <= 9999 -> 1 <= y' <= 9999 ->
  datetime.fmt_year y (String "-" k) = datetime.fmt_year y' (String "-" k') ->
  y = y' /\ k = k'.
Proof.
  intros Hy Hy'.
  assert (Hdash : forall x, datetime.digit_char (x mod 10) <> "-"%char)
    by (intros x; apply digit_char_not_dash, Z.mod_pos_bound; lia).
  assert (Hinj : forall x x',
            datetime.digit_char (x mod 10) = datetime.digit_char (x' mod 10) ->
            x mod 10 = x' mod 10)
    by (intros x x'; apply digit_char_inj; apply Z.mod_pos_bound; lia).
  unfold datetime.fmt_year, datetime.fmt4, datetime.fmt2.
  destruct (Z.ltb_spec y 10), (Z.ltb_spec y 100), (Z.ltb_spec y 1000);
    try lia;
    destruct (Z.ltb_spec y' 10), (Z.ltb_spec y' 100), (Z.ltb_spec y' 1000);
    try lia;
    intros E; injection E; clear E; intros;
    try (exfalso;
         match goal with
         | E : datetime.digit_char _ = "-"%char |- _ => exact (Hdash _ E)
         | E : "-"%char = datetime.digit_char _ |- _ =>
             exact (Hdash _ (eq_sym E))
         end);
    repeat match goal with
           | E : datetime.digit_char _ = datetime.digit_char _ |- _ =>
               apply Hinj in E
           end;
    (split; [Z.div_mod_to_equations; lia|done]).
Qed.

Lemma strftime_ymd_inj d d' :
  datetime.valid d = true -> datetime.valid d' = true ->
  datetime.strftime_ymd d = datetime.strftime_ymd d' -> d = d'.
Proof.
  intros Hv Hv' H.
  destruct (valid_bounds d Hv) as (Hy & Hm & Hd).
  destruct (valid_bounds d' Hv') as (Hy' & Hm' & Hd').
  destruct d as [y m dd], d' as [y' m' dd'].
  cbn [datetime.year datetime.month datetime.day] in *.
  unfold datetime.strftime_ymd in H.
  cbn [datetime.year datetime.month datetime.day] in H.
  apply fmt_year_inj in H as [-> H]; [|lia..].
  unfold datetime.fmt2 in H. injection H as H1 H2 H3 H4.
  apply digit_char_inj in H1, H2, H3, H4; try (apply Z.mod_pos_bound; lia).
  f_equal; Z.div_mod_to_equations; lia.
Qed.

Lemma series_view_inj (sel sel' : list string) (v v' : string) :
  map (pair "series") sel ++ [("view_type", v)]
  = map (pair "series") sel' ++ [("view_type", v')] ->
  sel = sel' /\ v = v'.
Proof.
  intros [Hsel Hv]%app_inj_tail. split; [|by injection Hv].
  apply (f_equal (map snd)) in Hsel.
  rewrite !map_map in Hsel. cbn [snd] in Hsel. by rewrite !map_id in Hsel.
Qed.

(** The encoded parameters tell the two date strings, the selection and
    the view type. *)
Lemma share_params_inj a b sel v a' b' sel' v' :
  forallb str.isascii sel = true -> forallb str.isascii sel' = true ->
  str.isascii v = true -> str.isascii v' = true ->
  urllib.urlencode (share_params a b sel v)
  = urllib.urlencode (share_params a' b' sel' v') ->
  datetime.strftime_ymd a = datetime.strftime_ymd a' /\
  datetime.strftime_ymd b = datetime.strftime_ymd b' /\
  sel = sel' /\ v = v'.
Proof.
  intros Hsel Hsel' Hv Hv' H. apply (f_equal urllib.parse_qsl) in H.
  rewrite !parse_qsl_urlencode in H
    by (unfold share_params;
        repeat constructor; cbn [fst snd qvalue_isascii];
        auto using strftime_isascii).
  unfold share_params, query_pairs in H. cbn [flat_map fst snd app] in H.
  injection H as Ha Hb Hrest.
  by destruct (series_view_inj _ _ _ _ Hrest).
Qed.

Lemma series_of_catalog sel :
  sel <> [] -> Forall (fun s => contains CPI_SERIES s = true) sel ->
  series_of sel = sel.
Proof.
  intros Hne Hsel. unfold series_of. rewrite filter_catalog by done.
  by destruct sel.
Qed.

(** X9: two states with valid dates, a selection that is not empty and made
    of catalog names, and one of the three view types have the same share
    URL only if they are the same state: a link identifies the view. *)
Theorem share_url_injective (qp qp' : st.query_params)
    (a b a' b' : datetime.date) (sel sel' : list string) (v v' : string) :
  datetime.valid a = true -> datetime.valid b = true ->
  datetime.valid a' = true -> datetime.valid b' = true ->
  sel <> [] -> sel' <> [] ->
  Forall (fun s => contains CPI_SERIES s = true) sel ->
  Forall (fun s => contains CPI_SERIES s = true) sel' ->
  is_in v VIEW_TYPES = true -> is_in v' VIEW_TYPES = true ->
  generate_share_url qp a b sel v = generate_share_url qp' a' b' sel' v' ->
  a = a' /\ b = b' /\ sel = sel' /\ v = v'.
Proof.
  intros Ha Hb Ha' Hb' Hne Hne' Hsel Hsel' Hv Hv' Hurl.
  apply (f_equal (fun u => snd (str.partition "?" u))) in Hurl.
  rewrite !after_qmark_share_url in Hurl.
  apply share_params_inj in Hurl as (Ea & Eb & -> & ->);
    auto using selection_isascii, view_type_isascii.
  apply strftime_ymd_inj in Ea; [|done..].
  apply strftime_ymd_inj in Eb; [|done..].
  by subst.
Qed.

Lemma share_url_injective_witness :
  generate_share_url ∅ (datetime.mkdate 2020 1 5) (datetime.mkdate 2024 12 31)
    ["Housing"] "Both"
  = generate_share_url {["_url" := ["?x=1"]]} (datetime.mkdate 2020 1 5)
      (datetime.mkdate 2024 12 31) ["Housing"] "Both" /\
  datetime.mkdate 2020 1 5 = datetime.mkdate 2020 1 5.
Proof.
  split; [reflexivity|].
  apply (share_url_injective ∅ {["_url" := ["?x=1"]]}
           (datetime.mkdate 2020 1 5) (datetime.mkdate 2024 12 31)
           (datetime.mkdate 2020 1 5) (datetime.mkdate 2024 12 31)
           ["Housing"] ["Housing"] "Both" "Both");
    try reflexivity; try discriminate; repeat constructor.
Defined.

(** X10: decoding is stable under sharing.  When the decoder gives both
    dates for a URL, both of the year 1000 or later, and at most as many
    names as the catalog has, the share URL of the decoded state, made on a
    page whose current URL has no [#] before its first [?], decodes to the
    same state, without a warning, whatever the first URL held. *)
Theorem decoded_state_reshared (qp qp' : st.query_params) p ws s e :
  get_url_params qp = (Ok p, ws) ->
  start_date p = Some s -> end_date p = Some e ->
  1000 <= datetime.year s -> 1000 <= datetime.year e ->
  (length (series p) <= length CPI_SERIES)%nat ->
  str.has "#" (base_url qp') = false ->
  decode_share_url qp' s e (series p) (view_type p) = Some (Ok p, []).
Proof.
  intros Hg Hs He Hys Hye _ Hbase.
  destruct (get_url_params_valid qp) as (p' & ws' & Hg' & Hv).
  rewrite Hg in Hg'. injection Hg' as <- <-.
  destruct Hv as (Hvs & Hve & Hne & Hser & Hview).
  rewrite valid_share_decoded by auto.
  rewrite series_of_catalog by done.
  destruct p; simpl in *. by subst.
Qed.

Lemma decoded_state_reshared_witness :
  decode_share_url ∅ (datetime.mkdate 2020 1 5) (datetime.mkdate 2024 12 31)
    ["All Items"] "Index Values"
  = Some (Ok {| start_date := Some (datetime.mkdate 2020 1 5);
                end_date := Some (datetime.mkdate 2024 12 31);
                series := ["All Items"];
                view_type := "Index Values" |}, []).
Proof.
  exact (decoded_state_reshared
           (<["end_date" := ["2024-12-31"]]>
              (<["start_date" := ["2020-1-5"]]>
                 {["series" := ["All+Items"; "Bogus"]]}))
           ∅
           {| start_date := Some (datetime.mkdate 2020 1 5);
              end_date := Some (datetime.mkdate 2024 12 31);
              series := ["All Items"];
              view_type := "Index Values" |}
           [] (datetime.mkdate 2020 1 5) (datetime.mkdate 2024 12 31)
           eq_refl eq_refl eq_refl
           ltac:(simpl; lia) ltac:(simpl; lia) ltac:(simpl; lia) eq_refl).
Defined.

(** ** Ordinals and dates *)

Lemma all_from_spec n o (k : nat) :
  all_from n o = true -> (k < n)%nat -> ord_ok (o + Z.of_nat k) = true.
Proof.
  revert o k. induction n as [|n IH]; intros o k H Hk; [lia|].
  cbn [all_from] in H. apply andb_prop in H as [H0 H].
  destruct k as [|k].
  - by rewrite Z.add_0_r.
  - replace (o + Z.of_nat (S k)) with (o + 1 + Z.of_nat k) by lia.
    apply IH; [done|lia].
Qed.

(** One cycle of 400 years, by evaluation. *)
Lemma first_cycle_ok : all_from (Z.to_nat 146097) 1 = true.
Proof. vm_compute. reflexivity. Qed.

Lemma ord2ymd_shift o q :
  datetime.ord2ymd (o + q * 146097)
  = datetime.mkdate (datetime.year (datetime.ord2ymd o) + 400 * q)
      (datetime.month (datetime.ord2ymd o))
      (datetime.day (datetime.ord2ymd o)).
Proof.
  unfold datetime.ord2ymd, datetime.DI400Y. cbv zeta.
  replace (o + q * 146097 - 1) with (o - 1 + q * 146097) by lia.
  rewrite Z.div_add, Z.mod_add by lia.
  repeat case_match; cbn [datetime.year datetime.month datetime.day];
    f_equal; lia.
Qed.

Lemma is_leap_shift y q : datetime.is_leap (y + 400 * q) = datetime.is_leap y.
Proof.
  unfold datetime.is_leap.
  replace (y + 400 * q) with (y + (100 * q) * 4) at 1 by lia.
  replace (y + 400 * q) with (y + (4 * q) * 100) at 1 by lia.
  replace (y + 400 * q) with (y + q * 400) by lia.
  by rewrite !Z.mod_add by lia.
Qed.

Lemma toordinal_shift y m d q :
  datetime.toordinal (datetime.mkdate (y + 400 * q) m d)
  = datetime.toordinal (datetime.mkdate y m d) + q * 146097.
Proof.
  unfold datetime.toordinal, datetime.ymd2ord, datetime.days_before_month,
    datetime.days_before_year. cbn [datetime.year datetime.month datetime.day].
  rewrite is_leap_shift. cbv zeta.
  replace (y + 400 * q - 1) with (y - 1 + 400 * q) by lia.
  replace ((y - 1 + 400 * q) / 4) with ((y - 1) / 4 + 100 * q)
    by (replace (y - 1 + 400 * q) with (y - 1 + (100 * q) * 4) by lia;
        by rewrite Z.div_add by lia).
  replace ((y - 1 + 400 * q) / 100) with ((y - 1) / 100 + 4 * q)
    by (replace (y - 1 + 400 * q) with (y - 1 + (4 * q) * 100) by lia;
        by rewrite Z.div_add by lia).
  replace ((y - 1 + 400 * q) / 400) with ((y - 1) / 400 + q)
    by (replace (y - 1 + 400 * q) with (y - 1 + q * 400) by lia;
        by rewrite Z.div_add by lia).
  lia.
Qed.

(** [date.fromordinal] and [date.toordinal]: every ordinal of the calendar
    is the ordinal of the date that [ord2ymd] gives for it. *)
Lemma ord2ymd_toordinal o :
  1 <= o <= datetime.MAXORDINAL ->
  datetime.valid (datetime.ord2ymd o) = true /\
  datetime.toordinal (datetime.ord2ymd o) = o.
Proof.
  unfold datetime.MAXORDINAL. intros Ho.
  set (q := (o - 1) / 146097). set (r := (o - 1) mod 146097 + 1).
  assert (Hq : 0 <= q <= 24).
  { unfold q. split; [apply Z.div_pos; lia|].
    apply Z.lt_succ_r, Z.div_lt_upper_bound; lia. }
  assert (Hr : 1 <= r <= 146097)
    by (unfold r; pose proof (Z.mod_pos_bound (o - 1) 146097); lia).
  assert (Ho' : o = r + q * 146097)
    by (unfold q, r; pose proof (Z.div_mod (o - 1) 146097); lia).
  pose proof (all_from_spec (Z.to_nat 146097) 1 (Z.to_nat (r - 1))
                first_cycle_ok) as Hc.
  replace (1 + Z.of_nat (Z.to_nat (r - 1))) with r in Hc by lia.
  specialize (Hc ltac:(lia)). unfold ord_ok in Hc. cbv zeta in Hc.
  apply andb_prop in Hc as [Hc H399]. apply andb_prop in Hc as [Hc H400].
  apply andb_prop in Hc as [Hv Hord].
  apply Z.eqb_eq in Hord. apply Z.leb_le in H400.
  rewrite Ho', ord2ymd_shift. destruct (datetime.ord2ymd r) as [y m d].
  cbn [datetime.year datetime.month datetime.day] in *.
  split; [|by rewrite toordinal_shift, Hord].
  unfold datetime.valid, datetime.check_date_fields, datetime.days_in_month,
    datetime.MINYEAR, datetime.MAXYEAR in *.
  cbn [datetime.year datetime.month datetime.day] in *.
  rewrite is_leap_shift.
  apply andb_prop in Hv as [Hv H6]. apply andb_prop in Hv as [Hv H5].
  apply andb_prop in Hv as [Hv H4]. apply andb_prop in Hv as [Hv H3].
  apply andb_prop in Hv as [H1 H2].
  rewrite H3, H4, H5, H6, !andb_true_r.
  apply Z.leb_le in H1. apply andb_true_intro. split; apply Z.leb_le; [lia|].
  apply orb_prop in H399 as [Hlt|Hle].
  - apply Z.ltb_lt in Hlt. lia.
  - apply Z.leb_le in Hle. lia.
Qed.

(** ** The page script *)

Lemma toordinal_bounds d :
  datetime.valid d = true ->
  1 <= datetime.toordinal d /\
  datetime.toordinal d - 365 * 5 <= datetime.MAXORDINAL.
Proof.
  intros Hv. pose proof (valid_bounds d Hv) as (Hy & Hm & Hd).
  unfold datetime.valid, datetime.check_date_fields in Hv.
  apply andb_prop in Hv as [_ Hdim]. apply Z.leb_le in Hdim.
  destruct d as [y m dd]. cbn [datetime.year datetime.month datetime.day] in *.
  unfold datetime.toordinal, datetime.ymd2ord, datetime.days_before_year,
    datetime.days_before_month, datetime.MAXORDINAL.
  cbn [datetime.year datetime.month datetime.day]. cbv zeta.
  assert (Hm' : 1 <= datetime.DAYS_BEFORE_MONTH m
                     + (if (2 <? m) && datetime.is_leap y then 1 else 0)
                     + dd <= 366).
  { unfold datetime.days_in_month in Hdim.
    assert (m = 1 \/ m = 2 \/ m = 3 \/ m = 4 \/ m = 5 \/ m = 6 \/ m = 7 \/
            m = 8 \/ m = 9 \/ m = 10 \/ m = 11 \/ m = 12) as Hcases by lia.
    destruct (datetime.is_leap y);
      repeat (destruct Hcases as [->|Hcases]; [simpl in *; lia|]);
      subst; simpl in *; lia. }
  Z.div_mod_to_equations. lia.
Qed.

Lemma sub_days_ok d n d' :
  datetime.sub_days d n = Ok d' ->
  datetime.valid d' = true /\ datetime.toordinal d' = datetime.toordinal d - n.
Proof.
  unfold datetime.sub_days. cbv zeta.
  destruct (_ && _) eqn:Hr; [|done]. intros [= <-].
  apply andb_prop in Hr as [H1 H2]. apply Z.ltb_lt in H1. apply Z.leb_le in H2.
  apply ord2ymd_toordinal. lia.
Qed.

Lemma default_start_valid now p ds :
  params_valid p -> default_start now p = Ok ds -> datetime.valid ds = true.
Proof.
  intros (Hs & _) Hd. unfold default_start in Hd.
  destruct (start_date p) as [d|] eqn:Hp.
  - injection Hd as <-. by apply Hs.
  - by apply sub_days_ok in Hd as [? _].
Qed.

Lemma default_end_valid now p :
  params_valid p -> datetime.valid now = true ->
  datetime.valid (default_end now p) = true.
Proof.
  intros (_ & He & _) Hnow. unfold default_end.
  destruct (end_date p) as [d|] eqn:Hp; [by apply He|done].
Qed.

Lemma date_input_eq v m :
  st.date_input v m
  = if datetime.leb m v then Ok v else Raise StreamlitAPIException.
Proof.
  unfold st.date_input, datetime.ltb, datetime.leb.
  rewrite Z.leb_antisym. by destruct (_ <? _).
Qed.

(** X11: once the decoder has returned and the default of the start date is
    known, the page script builds a state exactly when that date is not
    before 1 January 1947 and the default of the end date is not before it;
    the state then holds these two dates and the decoded selection and view
    type unchanged, and otherwise a date widget raises a
    [StreamlitAPIException]. *)
Theorem page_state_dates (now : datetime.date) (qp : st.query_params)
    p ws ds :
  get_url_params qp = (Ok p, ws) ->
  default_start now p = Ok ds ->
  page_state now qp
  = if datetime.leb (datetime.mkdate 1947 1 1) ds
       && datetime.leb ds (default_end now p)
    then (Ok {| vs_start_date := ds;
                vs_end_date := default_end now p;
                vs_selected_series := series p;
                vs_view_type := view_type p |}, ws)
    else (Raise StreamlitAPIException, ws).
Proof.
  intros Hg Hds.
  destruct (get_url_params_valid qp) as (p' & ws' & Hg' & Hv).
  rewrite Hg in Hg'. injection Hg' as <- <-.
  rewrite (page_state_eq now qp p ws Hg Hv), Hds, date_input_eq.
  destruct (datetime.leb (datetime.mkdate 1947 1 1) ds); [|done].
  rewrite date_input_eq. by destruct (datetime.leb ds _).
Qed.

Lemma page_state_dates_witness :
  page_state (datetime.mkdate 2026 11 4) {["start_date" := ["1946-12-31"]]}
  = (Raise StreamlitAPIException, []).
Proof.
  exact (page_state_dates (datetime.mkdate 2026 11 4)
           {["start_date" := ["1946-12-31"]]}
           {| start_date := Some (datetime.mkdate 1946 12 31);
              end_date := None;
              series := ["All Items"; "All Items Less Food and Energy"];
              view_type := "Index Values" |}
           [] (datetime.mkdate 1946 12 31) eq_refl eq_refl).
Defined.

(** X12: for a URL that gives no usable date, on any day from
    31 December 1951 on, the page script builds its state without raising:
    the start date is the calendar date exactly 1825 days before today, the
    end date is today. *)
Theorem page_state_without_dates (now : datetime.date)
    (qp : st.query_params) p ws :
  get_url_params qp = (Ok p, ws) ->
  start_date p = None -> end_date p = None ->
  datetime.valid now = true ->
  datetime.leb (datetime.mkdate 1951 12 31) now = true ->
  exists d0,
    datetime.sub_days now (365 * 5) = Ok d0 /\
    datetime.valid d0 = true /\
    datetime.toordinal d0 = datetime.toordinal now - 1825 /\
    page_state now qp
    = (Ok {| vs_start_date := d0;
             vs_end_date := now;
             vs_selected_series := series p;
             vs_view_type := view_type p |}, ws).
Proof.
  intros Hg Hs He Hnow Hlate.
  destruct (toordinal_bounds now Hnow) as [Hlo Hhi].
  unfold datetime.leb in Hlate. apply Z.leb_le in Hlate.
  change (datetime.toordinal (datetime.mkdate 1951 12 31)) with 712587 in Hlate.
  destruct (datetime.sub_days now (365 * 5)) as [d0|e] eqn:Hsub.
  2:{ unfold datetime.sub_days in Hsub. cbv zeta in Hsub.
      destruct (_ && _) eqn:Hr; [done|].
      apply andb_false_iff in Hr as [Hr|Hr];
        [apply Z.ltb_ge in Hr|apply Z.leb_gt in Hr]; lia. }
  destruct (sub_days_ok _ _ _ Hsub) as [Hv0 Ho0].
  exists d0. split; [done|]. split; [done|]. split; [done|].
  assert (Hds : default_start now p = Ok d0)
    by (unfold default_start; by rewrite Hs).
  rewrite (page_state_dates now qp p ws d0 Hg Hds).
  unfold default_end. rewrite He.
  replace (datetime.leb (datetime.mkdate 1947 1 1) d0) with true.
  2:{ symmetry. unfold datetime.leb. apply Z.leb_le. rewrite Ho0.
      change (datetime.toordinal (datetime.mkdate 1947 1 1)) with 710762.
      lia. }
  replace (datetime.leb d0 now) with true; [done|].
  symmetry. unfold datetime.leb. apply Z.leb_le. lia.
Qed.

Lemma page_state_without_dates_witness :
  exists d0,
    datetime.sub_days (datetime.mkdate 2026 11 4) (365 * 5) = Ok d0 /\
    datetime.valid d0 = true /\
    datetime.toordinal d0
    = datetime.toordinal (datetime.mkdate 2026 11 4) - 1825 /\
    page_state (datetime.mkdate 2026 11 4) ∅
    = (Ok {| vs_start_date := d0;
             vs_end_date := datetime.mkdate 2026 11 4;
             vs_selected_series :=
               ["All Items"; "All Items Less Food and Energy"];
             vs_view_type := "Index Values" |}, []).
Proof.
  exact (page_state_without_dates (datetime.mkdate 2026 11 4) ∅
           {| start_date := None; end_date := None;
              series := ["All Items"; "All Items Less Food and Energy"];
              view_type := "Index Values" |} []
           eq_refl eq_refl eq_refl eq_refl eq_refl).
Defined.

(** A date that the start date widget accepts, or a later one, has a year
    of four digits. *)
Lemma toordinal_year d :
  datetime.valid d = true ->
  datetime.toordinal d
  <= datetime.days_before_year (datetime.year d) + 366.
Proof.
  intros Hv. pose proof (valid_bounds d Hv) as (Hy & Hm & Hd).
  unfold datetime.valid, datetime.check_date_fields in Hv.
  apply andb_prop in Hv as [_ Hdim]. apply Z.leb_le in Hdim.
  destruct d as [y m dd]. cbn [datetime.year datetime.month datetime.day] in *.
  unfold datetime.toordinal, datetime.ymd2ord, datetime.days_before_month.
  cbn [datetime.year datetime.month datetime.day].
  assert (Hm' : datetime.DAYS_BEFORE_MONTH m
                + (if (2 <? m) && datetime.is_leap y then 1 else 0)
                + dd <= 366); [|lia].
  unfold datetime.days_in_month in Hdim.
  assert (m = 1 \/ m = 2 \/ m = 3 \/ m = 4 \/ m = 5 \/ m = 6 \/ m = 7 \/
          m = 8 \/ m = 9 \/ m = 10 \/ m = 11 \/ m = 12) as Hcases by lia.
  destruct (datetime.is_leap y);
    repeat (destruct Hcases as [->|Hcases]; [simpl in *; lia|]);
    subst; simpl in *; lia.
Qed.

Lemma widget_year d :
  datetime.valid d = true ->
  datetime.toordinal (datetime.mkdate 1947 1 1) <= datetime.toordinal d ->
  1000 <= datetime.year d.
Proof.
  intros Hv Hle. pose proof (toordinal_year d Hv) as H.
  pose proof (valid_bounds d Hv) as (Hy & _ & _).
  assert (H0 : 700000 <= datetime.toordinal (datetime.mkdate 1947 1 1))
    by (by vm_compute).
  unfold datetime.days_before_year in H. cbv zeta in H.
  Z.div_mod_to_equations. lia.
Qed.

(** X13: a state that the page script has built for one URL, with at most as
    many selected names as the catalog has, comes back from its share URL
    when the current URL of the page that makes the share URL has no [#]
    before its first [?]: Streamlit finds parameters in the query of the
    share URL, and the page script, run on them on any later day, builds the
    same state and shows no warning. *)
Theorem page_state_reshared (now now' : datetime.date)
    (qp qp' : st.query_params) vs ws :
  datetime.valid now = true ->
  page_state now qp = (Ok vs, ws) ->
  (length (vs_selected_series vs) <= length CPI_SERIES)%nat ->
  str.has "#" (base_url qp') = false ->
  exists q : gmap string (list string),
    urllib.parse_qs
      (query_string
         (generate_share_url qp' (vs_start_date vs) (vs_end_date vs)
            (vs_selected_series vs) (vs_view_type vs))) = Some q /\
    page_state now' q = (Ok vs, []).
Proof.
  intros Hnow Hpage _ Hbase.
  destruct (get_url_params_valid qp) as (p & ws0 & Hg & Hv).
  rewrite (page_state_eq now qp p ws0 Hg Hv) in Hpage.
  destruct (default_start now p) as [ds|] eqn:Hds; [|done].
  destruct (st.date_input ds _) as [s|] eqn:Hs; [|done].
  destruct (st.date_input (default_end now p) s) as [e|] eqn:He; [|done].
  injection Hpage as <- <-.
  cbn [vs_start_date vs_end_date vs_selected_series vs_view_type].
  pose proof (date_input_ok _ _ _ Hs) as [-> Hmin].
  pose proof (date_input_ok _ _ _ He) as [-> Hord].
  pose proof (default_start_valid now p ds Hv Hds) as Hvs.
  pose proof (default_end_valid now p Hv Hnow) as Hve.
  destruct Hv as (_ & _ & Hne & Hser & Hview).
  unfold datetime.leb in Hmin, Hord.
  apply Z.leb_le in Hmin. apply Z.leb_le in Hord.
  assert (Hys : 1000 <= datetime.year ds) by (by apply widget_year).
  assert (Hye : 1000 <= datetime.year (default_end now p))
    by (apply widget_year; [done|lia]).
  pose proof (valid_share_decoded qp' ds (default_end now p) (series p)
                (view_type p) Hvs Hve Hys Hye Hbase Hser Hview) as Hdec.
  rewrite series_of_catalog in Hdec by done.
  unfold decode_share_url in Hdec.
  destruct (urllib.parse_qs _) as [q|]; [|done].
  injection Hdec as Hdec. exists q. split; [done|].
  set (de := default_end now p) in *.
  rewrite (page_state_eq now' q _ [] Hdec).
  - unfold default_start, default_end. cbn [start_date end_date].
    rewrite Hs, He. done.
  - unfold params_valid. cbn [start_date end_date series view_type].
    split; [by intros d [= <-]|]. split; [by intros d [= <-]|]. done.
Qed.

Lemma page_state_reshared_witness :
  exists q : gmap string (list string),
    urllib.parse_qs
      "start_date=2021-11-05&end_date=2026-11-04&series=Housing&view_type=Both"
    = Some q /\
    page_state (datetime.mkdate 2030 1 1) q
    = (Ok {| vs_start_date := datetime.mkdate 2021 11 5;
             vs_end_date := datetime.mkdate 2026 11 4;
             vs_selected_series := ["Housing"];
             vs_view_type := "Both" |}, []).
Proof.
  exact (page_state_reshared (datetime.mkdate 2026 11 4)
           (datetime.mkdate 2030 1 1)
           (<["view_type" := ["Both"]]> {["series" := ["Housing"]]}) ∅
           {| vs_start_date := datetime.mkdate 2021 11 5;
              vs_end_date := datetime.mkdate 2026 11 4;
              vs_selected_series := ["Housing"];
              vs_view_type := "Both" |} [] eq_refl eq_refl
           ltac:(simpl; lia) eq_refl).
Defined.

(** ** Examples of the fetch loop and of the colors *)

Lemma fetch_loop_key_error_witness :
  Exists (fun s => contains CPI_SERIES s = false) ["All Items"; "Bogus"] /\
  fst (fetch_loop example_provider (datetime.mkdate 2020 1 5)
         (datetime.mkdate 2024 12 31) ["All Items"; "Bogus"] [])
  = Raise KeyError.
Proof.
  assert (H : Exists (fun s => contains CPI_SERIES s = false)
                ["All Items"; "Bogus"])
    by (apply Exists_cons_tl, Exists_cons_hd; reflexivity).
  split; [exact H|].
  exact (fetch_loop_key_error example_provider (datetime.mkdate 2020 1 5)
           (datetime.mkdate 2024 12 31) _ [] H).
Defined.

Lemma fetch_loop_result_witness :
  fetch_loop example_provider (datetime.mkdate 2020 1 5)
    (datetime.mkdate 2024 12 31) ["All Items"; "Housing"; "Recreation"] []
  = (Ok [("All Items", example_frame (datetime.mkdate 2020 1 5));
         ("Recreation", example_frame (datetime.mkdate 2020 1 5))],
     [ErrorFetching ValueError]).
Proof.
  assert (Hcat : Forall (fun s => contains CPI_SERIES s = true)
                   ["All Items"; "Housing"; "Recreation"])
    by (repeat constructor).
  assert (Hnd : NoDup ["All Items"; "Housing"; "Recreation"])
    by compute_done.
  destruct (fetch_loop_result example_provider (datetime.mkdate 2020 1 5)
              (datetime.mkdate 2024 12 31) _ Hcat)
    as (d' & -> & _ & _ & Hd).
  rewrite (Hd Hnd). reflexivity.
Defined.

Lemma draw_chart_result_witness :
  exists fig t1 t2,
    draw_chart example_provider pandas.pad
      {| vs_start_date := datetime.mkdate 2020 1 5;
         vs_end_date := datetime.mkdate 2024 12 31;
         vs_selected_series := ["Housing"; "Recreation"];
         vs_view_type := "Index Values" |}
    = (Ok (Some fig), [ErrorFetching ValueError]) /\
    go.data fig = t1 ++ t2 /\
    forall (i : nat) t, t1 !! i = Some t -> go.color (go.line t) = palette_at i.
Proof.
  destruct (draw_chart_result example_provider pandas.pad
              {| vs_start_date := datetime.mkdate 2020 1 5;
                 vs_end_date := datetime.mkdate 2024 12 31;
                 vs_selected_series := ["Housing"; "Recreation"];
                 vs_view_type := "Index Values" |})
    as (d' & r & _ & Hdraw & Hnone & Hfig); [repeat constructor|].
  destruct r as [fig|].
  - destruct (Hfig fig eq_refl) as (_ & _ & t1 & t2 & Hdata & _ & _ & Hc1 & _).
    exists fig, t1, t2. split; [exact Hdraw|]. split; [exact Hdata|].
    intros i t Hi. by destruct (Hc1 i t Hi) as (? & ? & _ & _ & ?).
  - exfalso. pose proof (proj1 Hnone eq_refl "Recreation") as H.
    cbn [vs_selected_series] in H.
    specialize (H ltac:(apply list_elem_of_further, list_elem_of_here)).
    discriminate H.
Defined.

Lemma same_color_iff_same_position_mod_9_witness :
  series_colors [("A", frame_a); ("B", frame_b)] !! "A"
  <> series_colors [("A", frame_a); ("B", frame_b)] !! "B".
Proof.
  intros H.
  assert (Hnd : NoDup (keys [("A", frame_a); ("B", frame_b)])) by compute_done.
  apply (same_color_iff_same_position_mod_9 _ 0%nat 1%nat "A" "B" Hnd
           eq_refl eq_refl) in H.
  discriminate H.
Defined.
